(** * Verification of the resume analyzer extraction-and-scoring core

    A shallow embedding of [app/services/extractor.py],
    [app/services/skill_matcher.py], [app/utils/scoring.py],
    [app/utils/text_cleaner.py] and of the hyperlink merge in
    [app/routes/upload.py].

    Python [str] values are modelled as Rocq [string]s, i.e. sequences of
    ASCII characters; the character classes of Python ([str.isspace],
    [str.isalpha], [str.isdigit], [str.lower], the [\w] and [\s] classes of
    [re]) are written out for that alphabet. Python exceptions are modelled
    by a small error monad [result]. *)

From Stdlib Require Import Strings.String Strings.Ascii.
From Stdlib Require Import Lists.List Bool.Bool Arith.Arith NArith.NArith.
From Stdlib Require Import ZArith.ZArith QArith.QArith QArith.Qabs Sorting.Sorted Sorting.Permutation Lia Lqa.
Import ListNotations.
Open Scope string_scope.
Open Scope nat_scope.

(** ** Python exceptions *)

Inductive exn : Type :=
| IndexError
| OSError.

Inductive result (A : Type) : Type :=
| Ok (a : A)
| Exc (e : exn).
Arguments Ok {A} a.
Arguments Exc {A} e.

Definition bind {A B : Type} (m : result A) (k : A -> result B) : result B :=
  match m with
  | Ok a => k a
  | Exc e => Exc e
  end.

Notation "x <- m ;; k" := (bind m (fun x => k))
  (at level 61, m at next level, right associativity).

(** ** Characters (ASCII) *)

Definition code (c : ascii) : N := N_of_ascii c.

(** [str.isspace] / [re]'s [\s] on ASCII: [\t \n \v \f \r], the separators
    [\x1c]-[\x1f] and the space. *)
Definition is_space (c : ascii) : bool :=
  let n := code c in ((9 <=? n) && (n <=? 13) || (28 <=? n) && (n <=? 32))%N.

Definition is_digit (c : ascii) : bool := let n := code c in ((48 <=? n) && (n <=? 57))%N.
Definition is_upper (c : ascii) : bool := let n := code c in ((65 <=? n) && (n <=? 90))%N.
Definition is_lower (c : ascii) : bool := let n := code c in ((97 <=? n) && (n <=? 122))%N.
Definition is_alpha (c : ascii) : bool := is_upper c || is_lower c.
Definition is_alnum (c : ascii) : bool := is_alpha c || is_digit c.

(** [re]'s [\w]: letters, digits and the underscore. *)
Definition is_word (c : ascii) : bool := is_alnum c || Ascii.eqb c "_"%char.

Definition lower_char (c : ascii) : ascii :=
  if is_upper c then ascii_of_N (code c + 32) else c.
Definition upper_char (c : ascii) : ascii :=
  if is_lower c then ascii_of_N (code c - 32) else c.

(** ** Python string methods *)

(** [s.lower()] *)
Fixpoint lower (s : string) : string :=
  match s with
  | EmptyString => EmptyString
  | String c s' => String (lower_char c) (lower s')
  end.

(** [s.lstrip()], [s.rstrip()], [s.strip()] *)
Fixpoint lstrip (s : string) : string :=
  match s with
  | EmptyString => EmptyString
  | String c s' => if is_space c then lstrip s' else s
  end.

Fixpoint rstrip (s : string) : string :=
  match s with
  | EmptyString => EmptyString
  | String c s' =>
      let r := rstrip s' in
      if String.eqb r "" && is_space c then "" else String c r
  end.

Definition strip (s : string) : string := lstrip (rstrip s).

(** [s.lstrip(chars)] *)
Fixpoint lstrip_chars (chars s : string) : string :=
  match s with
  | EmptyString => EmptyString
  | String c s' =>
      if existsb (Ascii.eqb c) (list_ascii_of_string chars)
      then lstrip_chars chars s' else s
  end.

(** [sub in s] *)
Fixpoint contains (sub s : string) : bool :=
  String.prefix sub s ||
  match s with
  | EmptyString => false
  | String _ s' => contains sub s'
  end.

(** [s.startswith(p)], [s.endswith(p)] *)
Definition startswith (p s : string) : bool := String.prefix p s.
Definition endswith (p s : string) : bool :=
  (Nat.leb (String.length p) (String.length s))
  && String.eqb (substring (String.length s - String.length p) (String.length p) s) p.

(** [s[n:]] *)
Fixpoint drop (n : nat) (s : string) : string :=
  match n, s with
  | O, _ => s
  | S n', String _ s' => drop n' s'
  | S _, EmptyString => EmptyString
  end.

(** [s[:n]] *)
Definition take (n : nat) (s : string) : string := substring 0 n s.

(** [s.split(sep)] for a one-character separator. *)
Fixpoint split_on (sep : ascii) (s : string) : list string :=
  match s with
  | EmptyString => [""]
  | String c s' =>
      if Ascii.eqb c sep then "" :: split_on sep s'
      else match split_on sep s' with
           | h :: t => String c h :: t
           | [] => [String c ""]
           end
  end.

(** [s.split("(")[0]] *)
Definition before_char (sep : ascii) (s : string) : string :=
  hd "" (split_on sep s).

(** [sep.join(l)] *)
Definition join (sep : string) (l : list string) : string := String.concat sep l.

(** [s.split()]: maximal runs of non-whitespace characters. *)
Fixpoint split_ws_aux (cur s : string) : list string :=
  match s with
  | EmptyString => if String.eqb cur "" then [] else [cur]
  | String c s' =>
      if is_space c then
        (if String.eqb cur "" then split_ws_aux "" s' else cur :: split_ws_aux "" s')
      else split_ws_aux (cur ++ String c "") s'
  end.
Definition split_ws (s : string) : list string := split_ws_aux "" s.

(** [s.replace(old, new)] for a non-empty [old] (every call site passes a
    non-empty literal or vocabulary term): the scan is left to right and
    non-overlapping; [skip] counts the characters of an occurrence still to
    be consumed. *)
Fixpoint replace_aux (old new : string) (skip : nat) (s : string) : string :=
  match s with
  | EmptyString => EmptyString
  | String c s' =>
      match skip with
      | S k => replace_aux old new k s'
      | O => if String.prefix old s
             then new ++ replace_aux old new (String.length old - 1) s'
             else String c (replace_aux old new 0 s')
      end
  end.
Definition replace (old new s : string) : string := replace_aux old new 0 s.

(** ** Sets of strings and [sorted] *)

Definition mem (x : string) (l : list string) : bool := existsb (String.eqb x) l.

(** [set(l)]: one copy of each element. *)
Fixpoint dedup (l : list string) : list string :=
  match l with
  | [] => []
  | x :: t => if mem x t then dedup t else x :: dedup t
  end.

(** [sorted(l)] on strings: code-point lexicographic order. *)
Fixpoint insert_sorted (x : string) (l : list string) : list string :=
  match l with
  | [] => [x]
  | y :: t => if String.leb x y then x :: y :: t else y :: insert_sorted x t
  end.
Fixpoint sort (l : list string) : list string :=
  match l with
  | [] => []
  | x :: t => insert_sorted x (sort t)
  end.

(** ** Skill vocabulary and skill extraction (extractor.py) *)

Definition TECH_WORDS : list string := [
  "python"; "java"; "c++"; "c#"; "javascript"; "typescript"; "go"; "rust"; "r"; "scala"; "kotlin";
  "fastapi"; "flask"; "django"; "spring"; "nodejs"; "express"; "next.js"; "nextjs"; "vue.js"; "nuxt";
  "pandas"; "numpy"; "scipy"; "scikit-learn"; "sklearn"; "matplotlib"; "seaborn"; "plotly";
  "statsmodels"; "xgboost"; "lightgbm"; "catboost"; "eda"; "statistical analysis";
  "sql"; "mysql"; "postgres"; "postgresql"; "mongodb"; "redis"; "cassandra"; "dynamodb"; "elasticsearch";
  "aws"; "azure"; "gcp"; "docker"; "kubernetes"; "jenkins"; "gitlab"; "github"; "circleci";
  "spark"; "hadoop"; "kafka"; "airflow"; "dbt"; "hive"; "presto";
  "pytorch"; "tensorflow"; "keras"; "torch"; "onnx"; "transformers"; "hugging face";
  "bert"; "gpt"; "llm"; "langchain"; "faiss"; "rag"; "llama"; "openai";
  "spacy"; "nltk"; "gensim"; "textblob"; "tokenization"; "nlp"; "ner"; "sentiment";
  "opencv"; "opencv-python"; "yolo"; "yolov8"; "yolov5"; "yolov3"; "cnn"; "deepsort";
  "react"; "vue"; "angular"; "svelte"; "html"; "css"; "sass"; "bootstrap"; "tailwind"; "d3.js";
  "git"; "jupyter"; "notebook"; "jupyter notebook"; "jira"; "confluence"; "notion";
  "linux"; "bash"; "shell"; "powershell"; "windows"; "mac"; "macos";
  "power bi"; "powerbi"; "tableau"; "looker"; "qlik"; "excel"; "vba";
  "regression"; "classification"; "random forest"; "lstm"; "rnn"; "cnn"; "gan"; "mlops";
  "time series"; "forecasting"; "clustering"; "pca"; "kmeans"; "ensemble"; "cross validation";
  "fine-tuning"; "prompt engineering"; "vector databases"; "embeddings"; "retrieval augmented"
]%string.

(** Is the character at position [i] of [s] a [\w] character (positions
    outside the string are not). *)
Definition word_at (s : string) (i : nat) : bool :=
  match String.get i s with
  | Some c => is_word c
  | None => false
  end.

(** Is the character just before position [i] a [\w] character. *)
Definition word_before (s : string) (i : nat) : bool :=
  match i with
  | O => false
  | S j => word_at s j
  end.

(** [\b] at position [i]: exactly one of the characters around [i] is a
    [\w] character. *)
Definition boundary (s : string) (i : nat) : bool :=
  xorb (word_before s i) (word_at s i).

(** Does [pat] occur at position [i] of [s] ([s[i:].startswith(pat)]). *)
Definition occurs_at (pat s : string) (i : nat) : bool :=
  String.prefix pat (drop i s).

(** [re.search(r'\b' + re.escape(tech) + r'\b', s)] succeeds: the escaped
    pattern is the literal [tech], so a match is a start position where the
    literal occurs with [\b] holding before and after it. *)
Definition search_bounded (tech s : string) : bool :=
  existsb (fun i => occurs_at tech s i && boundary s i && boundary s (i + String.length tech))
          (seq 0 (S (String.length s))).

(** [extract_skills_from_text] *)
Definition extract_skills_from_text (text : string) : list string :=
  let text_lower := lower text in
  sort (dedup (filter (fun tech => search_bounded tech text_lower) TECH_WORDS)).

(** ** Name extraction (extractor.py, [extract_name_robust]) *)

(** [s.splitlines()] on ASCII: line boundaries are [\n], [\r], [\r\n],
    [\v], [\f] and [\x1c]-[\x1e]; a final empty piece is not produced.
    [after_cr] records that the previous character was a [\r]. *)
Definition is_linebreak (c : ascii) : bool :=
  let n := code c in ((10 <=? n) && (n <=? 13) || (28 <=? n) && (n <=? 30))%N.

Fixpoint splitlines_aux (cur : string) (after_cr : bool) (s : string) : list string :=
  match s with
  | EmptyString => if String.eqb cur "" then [] else [cur]
  | String c s' =>
      if after_cr && Ascii.eqb c "010"%char then splitlines_aux cur false s'
      else if is_linebreak c then cur :: splitlines_aux "" (Ascii.eqb c "013"%char) s'
      else splitlines_aux (cur ++ String c "") false s'
  end.
Definition splitlines (s : string) : list string := splitlines_aux "" false s.

(** [s.title()]: a letter is upper-cased after a non-letter and lower-cased
    after a letter. *)
Fixpoint title_aux (prev_cased : bool) (s : string) : string :=
  match s with
  | EmptyString => EmptyString
  | String c s' =>
      if is_alpha c
      then String (if prev_cased then lower_char c else upper_char c) (title_aux true s')
      else String c (title_aux false s')
  end.
Definition title (s : string) : string := title_aux false s.

Definition chars (s : string) : list ascii := list_ascii_of_string s.

(** [s.isupper()]: some cased character and no lower-case one. *)
Definition isupper (s : string) : bool :=
  existsb is_upper (chars s) && negb (existsb is_lower (chars s)).

(** [sum(1 for c in line if c.isalpha() or c.isspace() or c in ['-', "'"])] *)
Definition alpha_count (line : string) : nat :=
  List.length (filter (fun c => is_alpha c || is_space c || Ascii.eqb c "-"%char
                                || Ascii.eqb c "'"%char) (chars line)).

Definition NAME_SKIP_WORDS : list string :=
  ["summary"; "objective"; "about"; "phone"; "email"; "linkedin"; "github"].

(** The body of the candidate loop of [extract_name_robust]: [true] when
    the line is appended to [name_candidates]. The test
    [alpha_count / len(line) > 0.7] is written [10 * alpha_count > 7 * len]:
    lines are at most 100 characters long here, so no quotient lies within
    a rounding error of [0.7]. *)
Definition is_name_candidate (line : string) : bool :=
  if contains "@" line || contains "http" line
     || (contains "+" line && (String.length line <? 5)) then false
  else if 100 <? String.length line then false
  else if isupper line && existsb is_digit (chars line) then false
  else if existsb (fun skip => contains skip (lower line)) NAME_SKIP_WORDS then false
  else
    let words := split_ws line in
    (1 <=? List.length words) && (List.length words <=? 5)
    && (7 * String.length line <? 10 * alpha_count line).

Definition extract_name_robust (text : string) : string :=
  let lines := filter (fun l => negb (String.eqb l "")) (map strip (splitlines text)) in
  match lines with
  | [] => ""
  | _ =>
      let name_candidates := filter is_name_candidate (firstn 15 lines) in
      match name_candidates with
      | [] => ""
      | first_candidate :: rest =>
          match rest with
          | second_candidate :: _ =>
              if (List.length (split_ws first_candidate) <=? 3)
                 && (List.length (split_ws second_candidate) <=? 3) then
                let combined := strip (first_candidate ++ " " ++ second_candidate) in
                if List.length (split_ws combined) <=? 5 then title combined
                else title first_candidate
              else title first_candidate
          | [] => title first_candidate
          end
      end
  end.

(** ** Python dicts with insertion order, as association lists *)

Fixpoint dict_get {V : Type} (k : string) (d : list (string * V)) (default : V) : V :=
  match d with
  | [] => default
  | (k', v) :: d' => if String.eqb k k' then v else dict_get k d' default
  end.

Fixpoint dict_set_aux {V : Type} (k : string) (v : V) (d : list (string * V)) : option (list (string * V)) :=
  match d with
  | [] => None
  | (k', v') :: d' =>
      if String.eqb k k' then Some ((k', v) :: d')
      else option_map (cons (k', v')) (dict_set_aux k v d')
  end.

(** [d[k] = v]: an existing key keeps its place, a new key goes last. *)
Definition dict_set {V : Type} (k : string) (v : V) (d : list (string * V)) : list (string * V) :=
  match dict_set_aux k v d with
  | Some d' => d'
  | None => d ++ [(k, v)]
  end.

(** ** Section segmentation (extractor.py) *)

Definition SECTION_KEYWORDS : list (string * list string) := [
  ("contact", ["contact"; "phone"; "email"; "linkedin"; "github"; "address"; "location"]);
  ("summary", ["summary"; "objective"; "profile"; "about"; "professional summary"; "executive summary"]);
  ("education", ["education"; "degree"; "university"; "college"; "b.tech"; "btech"; "bachelor"; "master";
                 "m.tech"; "mtech"; "certification"; "course"; "gpa"; "cgpa"]);
  ("experience", ["experience"; "work"; "employment"; "professional"; "job"; "position"; "worked as"; "worked on"]);
  ("projects", ["projects"; "project"; "portfolio"; "capstone"; "case study"; "assignment"]);
  ("skills", ["skills"; "technical"; "technologies"; "competencies"; "expertise"; "proficient"; "programming"; "tools"]);
  ("achievements", ["achievements"; "awards"; "recognitions"; "publications"; "certifications"; "honors"; "accomplishments"])
]%string.

Definition detect_section_start (line section : string) : bool :=
  let line_lower := strip (lower line) in
  if negb (contains ":" line) && negb (endswith "s" line_lower) then false
  else existsb (fun kw => contains kw line_lower) (dict_get section SECTION_KEYWORDS []).

(** Loop state of [split_resume_by_sections]: [sections],
    [current_section] and [current_content]. *)
Record split_state := mk_split_state {
  st_sections : list (string * string);
  st_current_section : string;
  st_current_content : list string
}.

Definition split_step (st : split_state) (line : string) : split_state :=
  let detected_section :=
    find (fun section_name => detect_section_start line section_name) (map fst SECTION_KEYWORDS) in
  match detected_section with
  | Some d =>
      mk_split_state
        (dict_set (st_current_section st) (strip (join (String "010"%char "") (st_current_content st))) (st_sections st))
        d [line]
  | None =>
      mk_split_state (st_sections st) (st_current_section st) (st_current_content st ++ [line])
  end.

Definition split_resume_by_sections (text : string) : list (string * string) :=
  let sections := dict_set "other" "" (map (fun kv => (fst kv, "")) SECTION_KEYWORDS) in
  let lines := split_on "010"%char text in
  let st := fold_left split_step lines (mk_split_state sections "contact" []) in
  dict_set (st_current_section st) (strip (join (String "010"%char "") (st_current_content st))) (st_sections st).

(** ** Records of [app/models/resume_schema.py] *)

Module OnlineProfile.
Record t := mk { label : string; url : string }.
End OnlineProfile.

Module Project.
Record t := mk { name : string; technologies : list string }.
End Project.

Module Resume.
Record t := mk {
  name : string;
  email : string;
  phone : string;
  online_profiles : list OnlineProfile.t;
  experience_summary : option string;
  projects : list Project.t;
  skills : list string;
  achievements : option (list string)
}.
End Resume.

(** ** Project extraction (extractor.py, [extract_projects_from_text])

    The source's bullet literal ['â€¢'] (code points U+00E2 U+20AC U+00A2)
    contains U+20AC, which no modelled string contains: the tests
    [hint in line.lower()] for the hint ["â€¢ "] are false and
    [replace("â€¢", "")] is the identity, so they are left out below. *)

Definition first_is_digit (line : string) : bool :=
  match line with
  | String c _ => is_digit c
  | EmptyString => false
  end.

(** One iteration of the [while] loop: [Some p] when a project is appended. *)
Definition project_of_line (raw : string) : option Project.t :=
  let line := strip raw in
  if contains "project:" (lower line)
     || (negb (String.eqb line "") && negb (first_is_digit line)
         && (5 <? String.length line)
         && existsb (fun tech => contains (lower tech) (lower line)) (firstn 10 TECH_WORDS))
  then
    let techs := filter (fun t => contains (lower t) (lower line)) TECH_WORDS in
    let project_name :=
      fold_left (fun pn tech => strip (replace (lower tech) "" (lower pn))) techs line in
    let project_name := strip (replace "project:" "" project_name) in
    let project_name := strip (before_char "(" project_name) in
    if negb (String.eqb project_name "") && (3 <? String.length project_name)
    then Some (Project.mk (take 150 project_name) (firstn 10 (sort (dedup techs))))
    else None
  else None.

Definition extract_projects_from_text (text : string) : list Project.t :=
  let projects :=
    flat_map (fun l => match project_of_line l with Some p => [p] | None => [] end)
             (split_on "010"%char text) in
  firstn 10 projects.

(** ** Achievement extraction (extractor.py, [extract_achievements_from_text])

    The condition is
    [line.startswith('â€¢') or line.startswith('-') or line[0].isdigit() and '.' in line[:3]];
    the first test is false on modelled strings, and [line[0]] raises
    [IndexError] on an empty line. The characters of ['â€¢-0123456789. ']
    that a modelled string can contain are ["-0123456789. "]. *)
Definition achievement_of_line (raw : string) : result (option string) :=
  let line := strip raw in
  cond <- (if startswith "-" line then Ok true
           else match line with
                | EmptyString => Exc IndexError
                | String c _ => Ok (is_digit c && contains "." (take 3 line))
                end) ;;
  if cond then
    let achievement := strip (lstrip_chars "-0123456789. " line) in
    if negb (String.eqb achievement "") && (10 <? String.length achievement)
    then Ok (Some (take 200 achievement))
    else Ok None
  else Ok None.

Fixpoint achievements_loop (lines : list string) : result (list string) :=
  match lines with
  | [] => Ok []
  | l :: rest =>
      a <- achievement_of_line l ;;
      acc <- achievements_loop rest ;;
      Ok (match a with Some x => x :: acc | None => acc end)
  end.

Definition extract_achievements_from_text (text : string) : result (list string) :=
  achievements <- achievements_loop (split_on "010"%char text) ;;
  Ok (firstn 10 achievements).

(** ** Profile extraction (extractor.py) *)

Definition PROFILE_LABELS : list (string * string) := [
  ("linkedin", "LinkedIn"); ("github", "GitHub"); ("portfolio", "Portfolio");
  ("medium", "Medium"); ("kaggle", "Kaggle"); ("leetcode", "LeetCode");
  ("codeforces", "Codeforces"); ("gitlab", "GitLab"); ("bitbucket", "Bitbucket")
]%string.

Definition label_url (url : string) : string :=
  let u := lower url in
  match find (fun kv => contains (fst kv) u) PROFILE_LABELS with
  | Some (_, lbl) => lbl
  | None => "Website"
  end.

(** The longest prefix of non-[\s] characters, and the rest. *)
Fixpoint span_nonspace (s : string) : string * string :=
  match s with
  | EmptyString => ("", "")
  | String c s' =>
      if is_space c then ("", s)
      else let (run, after) := span_nonspace s' in (String c run, after)
  end.

(** A match of [https?://[^\s]+] at the start of [s]: the greedy [s?]
    tries ["https://"] first, then ["http://"]. *)
Definition url_match_at (s : string) : option (string * string) :=
  let try_prefix p :=
    if String.prefix p s then
      let (run, after) := span_nonspace (drop (String.length p) s) in
      if String.eqb run "" then None else Some (p ++ run, after)
    else None in
  match try_prefix "https://" with
  | Some r => Some r
  | None => try_prefix "http://"
  end.

(** [URL_RE.findall(s)]: leftmost, non-overlapping matches; [fuel] bounds
    the scan by the length of the text. *)
Fixpoint url_findall_aux (fuel : nat) (s : string) : list string :=
  match fuel with
  | O => []
  | S f =>
      match s with
      | EmptyString => []
      | String _ s' =>
          match url_match_at s with
          | Some (m, after) => m :: url_findall_aux f after
          | None => url_findall_aux f s'
          end
      end
  end.
Definition url_findall (s : string) : list string := url_findall_aux (S (String.length s)) s.

(** The [profile_mentions] search of the source is computed and never used;
    it is left out. *)
Definition extract_profiles_from_text (text : string) : list OnlineProfile.t :=
  map (fun u => OnlineProfile.mk (label_url u) u) (url_findall text).

(** ** The assembler (extractor.py, [extract_resume_info])

    The regular-expression searches [extract_email] and [extract_phone] are
    total functions of the text whose results no property below depends on;
    they are kept abstract. [save_extracted_data] writes a report file: its
    outcome depends on the file system, so it is an oracle that either
    succeeds or raises. *)
Section Assembler.

Variable extract_email : string -> string.
Variable extract_phone : string -> string.
Variable save_extracted_data : string -> Resume.t -> result unit.

(** The summary with its fallback to the second line longer than 20
    characters. *)
Definition experience_summary_of (text : string) (sections : list (string * string)) : string :=
  let experience_summary := strip (dict_get "summary" sections "") in
  if String.eqb experience_summary "" then
    let lines := map strip (filter (fun l => negb (String.eqb (strip l) "")
                                               && (20 <? String.length (strip l)))
                                   (split_on "010"%char text)) in
    if 2 <? List.length lines then take 300 (nth 1 lines "") else experience_summary
  else experience_summary.

(** Everything before [save_extracted_data]: builds [resume_obj]. *)
Definition build_resume (text : string) : result Resume.t :=
  let name := extract_name_robust text in
  let email := extract_email text in
  let phone := extract_phone text in
  let sections := split_resume_by_sections text in
  let experience_summary := experience_summary_of text sections in
  let profiles := extract_profiles_from_text text in
  let skills := extract_skills_from_text text in
  let projects := extract_projects_from_text (dict_get "projects" sections text) in
  achievements <- extract_achievements_from_text (dict_get "achievements" sections text) ;;
  Ok (Resume.mk
        (if String.eqb name "" then "NOT EXTRACTED" else name)
        email phone profiles
        (if String.eqb experience_summary "" then None else Some experience_summary)
        projects skills
        (match achievements with [] => None | _ => Some achievements end)).

Definition extract_resume_info (text : string) : result Resume.t :=
  resume_obj <- build_resume text ;;
  _ <- save_extracted_data text resume_obj ;;
  Ok resume_obj.

End Assembler.

(** ** Text normalizer (text_cleaner.py, [normalize_text]) *)

Fixpoint map_chars (f : ascii -> ascii) (s : string) : string :=
  match s with
  | EmptyString => EmptyString
  | String c s' => String (f c) (map_chars f s')
  end.

(** Characters kept by [re.sub(r"[^a-z0-9+#.\s]", " ", t)]. *)
Definition keep_char (c : ascii) : bool :=
  is_lower c || is_digit c || Ascii.eqb c "+"%char || Ascii.eqb c "#"%char
  || Ascii.eqb c "."%char || is_space c.

(** [re.sub(r"\s+", " ", t)]; [in_ws] is set inside a run of whitespace. *)
Fixpoint collapse_ws (in_ws : bool) (s : string) : string :=
  match s with
  | EmptyString => EmptyString
  | String c s' =>
      if is_space c then
        (if in_ws then collapse_ws true s' else String " "%char (collapse_ws true s'))
      else String c (collapse_ws false s')
  end.

Definition normalize_text (text : string) : string :=
  let t := lower text in
  let t := map_chars (fun c => if keep_char c then c else " "%char) t in
  let t := collapse_ws false t in
  strip t.

(** ** Job-description skills (skill_matcher.py) *)

Module SkillMatcher.

Definition DEFAULT_SKILL_VOCAB : list string := [
  "python"; "fastapi"; "flask"; "django"; "nlp"; "spacy"; "nltk"; "bert"; "transformers";
  "pandas"; "numpy"; "sql"; "mongodb"; "postgres"; "aws"; "docker"; "kubernetes"; "spark"
]%string.

Definition extract_skills_from_text (text : string) : list string :=
  let t := normalize_text text in
  let tokens := split_ws t in
  sort (filter (fun s => mem s tokens) DEFAULT_SKILL_VOCAB).

(** The job-description side of [analyze_resume_vs_jd]. *)
Definition jd_skills_of (jd_title jd_description : string) : list string :=
  extract_skills_from_text (jd_title ++ String "010"%char jd_description).

End SkillMatcher.

(** ** Python floats (binary64)

    A finite Python [float] is an IEEE-754 binary64 value, a rational of
    the form [m * 2^e] with a 53-bit mantissa [m]. The operations used by
    the scoring code are correctly rounded: [a / b] on two [int]s, [x * y]
    on two floats, each the float nearest to the exact result, ties to an
    even mantissa ([fl] below). [round(x, 2)] rounds the exact binary value
    of [x] to the nearest multiple of [1/100], ties to even, and returns the
    float nearest to that decimal. Floats are kept as the rationals they
    denote; the values of the scoring code lie in [[0, 10]], far below the
    overflow threshold, which is not modelled. *)
Section Binary64.
Local Open Scope Z_scope.

(** The integer nearest to [n / d] for [d > 0], ties to even. *)
Definition round_half_even (n d : Z) : Z :=
  let q := (n / d)%Z in
  let r := (n mod d)%Z in
  if (2 * r <? d)%Z then q
  else if (d <? 2 * r)%Z then (q + 1)%Z
  else if Z.even q then q else (q + 1)%Z.

(** The rational [x] rounded to the nearest multiple of [1/100], ties to
    even, computed exactly. *)
Definition round2 (x : Q) : Q :=
  round_half_even (Qnum x * 100) (Zpos (Qden x)) # 100.

(** Whether [2^n <= a / b]. *)
Definition pow2_le (n : Z) (a b : positive) : bool :=
  if 0 <=? n then Zpos b * 2 ^ n <=? Zpos a else Zpos b <=? Zpos a * 2 ^ (- n).

(** The float nearest to [a / b], ties to even: [f] is [floor(log2(a / b))]
    and [e] the weight of the last mantissa bit, [f - 52] for a normal
    value and [-1074] for a subnormal one. *)
Definition fl_pos (a b : positive) : Q :=
  let n := Z.log2 (Zpos a) - Z.log2 (Zpos b) in
  let f := if pow2_le n a b then n else n - 1 in
  let e := Z.max (f - 52) (-1074) in
  if e <=? 0
  then round_half_even (Zpos a * 2 ^ (- e)) (Zpos b) # Z.to_pos (2 ^ (- e))
  else (round_half_even (Zpos a) (Zpos b * 2 ^ e) * 2 ^ e) # 1.

(** The float nearest to a rational. *)
Definition fl (q : Q) : Q :=
  let q := Qred q in
  match Qnum q with
  | Z0 => 0%Q
  | Zpos a => fl_pos a (Qden q)
  | Zneg a => Qopp (fl_pos a (Qden q))
  end.

(** [x / y] and [x * y] on floats, or on [int]s for [/]. *)
Definition fdiv (x y : Q) : Q := fl (x / y).
Definition fmul (x y : Q) : Q := fl (x * y).

(** [round(x, 2)] on a float [x]. *)
Definition py_round2 (x : Q) : Q := fl (round2 (Qred x)).

End Binary64.

(** ** Compatibility scoring (scoring.py, [compute_compatibility]) *)

Definition compute_compatibility (resume_skills jd_skills : list string)
  : Q * list string * list string :=
  let rs := dedup (map lower resume_skills) in
  let js := dedup (map lower jd_skills) in
  let matched := sort (filter (fun s => mem s js) rs) in
  let missing := sort (filter (fun s => negb (mem s rs)) js) in
  let denom := Nat.max 1 (List.length js) in
  let score := fmul 10 (fdiv (inject_Z (Z.of_nat (List.length matched)))
                             (inject_Z (Z.of_nat denom))) in
  (py_round2 score, matched, missing).

(** ** Hyperlink merge (upload.py, [upload_resume]) *)

Definition merge_step (profiles : list OnlineProfile.t) (link : string * string)
  : list OnlineProfile.t :=
  let (link_text, url) := link in
  if negb (String.eqb url "")
     && negb (existsb (fun p => String.eqb (OnlineProfile.url p) url) profiles)
  then profiles ++ [OnlineProfile.mk (label_url url) url]
  else profiles.

Definition merge_hyperlinks (profiles : list OnlineProfile.t) (hyperlinks : list (string * string))
  : list OnlineProfile.t :=
  match hyperlinks with
  | [] => profiles
  | _ => fold_left merge_step hyperlinks profiles
  end.

(** [resume_obj.online_profiles] after the merge. *)
Definition merge_into_resume (r : Resume.t) (hyperlinks : list (string * string)) : Resume.t :=
  Resume.mk (Resume.name r) (Resume.email r) (Resume.phone r)
            (merge_hyperlinks (Resume.online_profiles r) hyperlinks)
            (Resume.experience_summary r) (Resume.projects r) (Resume.skills r)
            (Resume.achievements r).

(** The URLs of a profile list. *)
Definition urls (ps : list OnlineProfile.t) : list string := map OnlineProfile.url ps.

(** ** Classified sections (extractor.py, [classify_resume_sections]) *)

Definition classify_resume_sections (text : string) : list (string * string) :=
  let sections := split_resume_by_sections text in
  [("full_text", text);
   ("contact", strip (dict_get "contact" sections ""));
   ("summary", strip (dict_get "summary" sections ""));
   ("education", strip (dict_get "education" sections ""));
   ("experience", strip (dict_get "experience" sections ""));
   ("projects", strip (dict_get "projects" sections ""));
   ("skills", strip (dict_get "skills" sections ""));
   ("achievements", strip (dict_get "achievements" sections ""))].

(** ** URLs of an uploaded text (resume_parser.py)

    [extract_urls_from_text] searches the pattern [(https?://[^\s]+)], the
    pattern of [URL_RE]; its matches are those of [url_findall]. *)
Definition extract_urls_from_text (text : string) : list (string * string) :=
  map (fun url => ("Profile", url)) (url_findall text).

(** The branch of [read_resume_text] for a file that is neither a PDF nor a
    DOCX: the decoded text and its hyperlinks. *)
Definition read_plain_text (text : string) : string * list (string * string) :=
  let hyperlinks := [] in
  (text, (hyperlinks ++ extract_urls_from_text text)%list).

(** ** Set-based scoring (scoring.py, [calculate_compatibility_score] and
    [analyze_skills])

    Both take Python sets, modelled as duplicate-free lists;
    [a.intersection(b)] keeps the elements of [a] that are in [b] and
    [a.difference(b)] those that are not. The order in which a set is
    turned into a list is unspecified; the model keeps the order of the
    arguments and the properties below are stated up to membership. The
    integer [10] in [skill_match_percentage * 10] is converted to the float
    [10.0]. *)
Definition set_intersection (a b : list string) : list string := filter (fun s => mem s b) a.
Definition set_difference (a b : list string) : list string := filter (fun s => negb (mem s b)) a.

Definition calculate_compatibility_score (resume_skills job_description_skills : list string) : Q :=
  match job_description_skills with
  | [] => 0%Q
  | _ =>
      let matched_skills := set_intersection resume_skills job_description_skills in
      let skill_match_percentage :=
        fdiv (inject_Z (Z.of_nat (List.length matched_skills)))
             (inject_Z (Z.of_nat (List.length job_description_skills))) in
      let score := fmul skill_match_percentage 10 in
      py_round2 score
  end.

(** The dictionary returned by [analyze_skills]. *)
Record skill_analysis := mk_skill_analysis {
  sa_matched_skills : list string;
  sa_missing_skills : list string;
  sa_compatibility_score : Q
}.

Definition analyze_skills (resume_skills job_description_skills : list string) : skill_analysis :=
  let matched_skills := set_intersection resume_skills job_description_skills in
  let missing_skills := set_difference job_description_skills resume_skills in
  let compatibility_score := calculate_compatibility_score resume_skills job_description_skills in
  mk_skill_analysis matched_skills missing_skills compatibility_score.

(** ** Rule-based analysis (skill_matcher.py, [analyze_resume_vs_jd]) *)

Module JobDescription.
Record t := mk { title : string; description : string }.
End JobDescription.

Module AnalysisResult.
Record t := mk {
  compatibility_score : Q;
  matched_skills : list string;
  missing_skills : list string;
  irrelevant_content : list string;
  suggestions : list (string * list string)
}.
End AnalysisResult.

Definition analyze_resume_vs_jd (resume : Resume.t) (jd : JobDescription.t) : AnalysisResult.t :=
  let jd_skills :=
    SkillMatcher.jd_skills_of (JobDescription.title jd) (JobDescription.description jd) in
  match compute_compatibility (Resume.skills resume) jd_skills with
  | (score, matched, missing) =>
      let irrelevant := filter (fun s => negb (mem s jd_skills)) (Resume.skills resume) in
      let suggestions := [("add", missing); ("remove", [])] in
      AnalysisResult.mk score matched missing irrelevant suggestions
  end.

(** ** Parsing of the analysis text (groq_analyzer.py)

    The bullet ['•'] (U+2022) is no modelled character: the branch
    [line.startswith('•')] of [extract_list_items] is never taken and is
    left out. *)

(** [s.split("\n\n")]: separators found left to right, without overlap. *)
Fixpoint split_blank_lines (s : string) : list string :=
  match s with
  | EmptyString => [""]
  | String c s' =>
      let cons_head (l : list string) :=
        match l with h :: t => String c h :: t | [] => [String c ""] end in
      if Ascii.eqb c "010"%char then
        match s' with
        | String d s'' =>
            if Ascii.eqb d "010"%char then "" :: split_blank_lines s''
            else cons_head (split_blank_lines s')
        | EmptyString => cons_head (split_blank_lines s')
        end
      else cons_head (split_blank_lines s')
  end.

(** [s.split(sep, 1)[1]]: what follows the first [sep]. The only call
    site has checked that [sep] occurs in [s]. *)
Fixpoint after_char (sep : ascii) (s : string) : string :=
  match s with
  | EmptyString => EmptyString
  | String c s' => if Ascii.eqb c sep then s' else after_char sep s'
  end.

(** One iteration of the loop of [extract_list_items]: [Some item] when an
    item is appended. *)
Definition list_item_of_line (raw : string) : option string :=
  let line := strip raw in
  if String.eqb line "" || contains ":" line || contains "=" line then None
  else
    let line :=
      if startswith "-" line then strip (drop 1 line)
      else if first_is_digit line && contains "." (take 3 line)
      then strip (after_char "."%char line)
      else line in
    if String.eqb line "" then None else Some line.

Definition extract_list_items (text : string) : list string :=
  flat_map (fun l => match list_item_of_line l with Some x => [x] | None => [] end)
           (split_on "010"%char text).

Definition is_header_line (line : string) : bool := contains ":" line || contains "=" line.

(** The loop of [extract_text_after_header]; [skip_header] as in the source. *)
Fixpoint text_after_header_aux (skip_header : bool) (lines : list string) : list string :=
  match lines with
  | [] => []
  | line :: rest =>
      if skip_header then text_after_header_aux (negb (is_header_line line)) rest
      else if String.eqb (strip line) "" then text_after_header_aux false rest
      else strip line :: text_after_header_aux false rest
  end.

Definition extract_text_after_header (text : string) : string :=
  join " " (text_after_header_aux true (split_on "010"%char text)).

(** Python floats: numbers, [nan] and the infinities. *)
Inductive pyfloat : Type :=
| PyNum (q : Q)
| PyNaN
| PyInf (negative : bool).

(** [0 <= score <= 10]: false on [nan] and on the infinities. *)
Definition in_score_range (f : pyfloat) : bool :=
  match f with
  | PyNum q => Qle_bool 0 q && Qle_bool q 10
  | _ => false
  end.

(** The dictionary built by [parse_groq_response]. *)
Module GroqResult.
Record t := mk {
  compatibility_score : pyfloat;
  matched_skills : list string;
  missing_skills : list string;
  strengths : list string;
  gaps : list string;
  recommendations : list string;
  overall_assessment : string;
  raw_response : string
}.
End GroqResult.

(** [float(word)] is Python's parser, [None] when it raises [ValueError];
    it is a parameter of the parser below. *)
Section GroqParser.

Variable float_of_word : string -> option pyfloat.

(** The score loop: the first word that parses to a float in range. *)
Fixpoint first_score (words : list string) : option pyfloat :=
  match words with
  | [] => None
  | word :: rest =>
      match float_of_word word with
      | Some score => if in_score_range score then Some score else first_score rest
      | None => first_score rest
      end
  end.

(** One iteration of the section loop of [parse_groq_response]. *)
Definition parse_section (result : GroqResult.t) (section : string) : GroqResult.t :=
  let section_lower := lower section in
  let '(GroqResult.mk score ms mi st ga re oa raw) := result in
  if contains "compatibility_score" section_lower then
    match first_score (split_ws section) with
    | Some s => GroqResult.mk s ms mi st ga re oa raw
    | None => result
    end
  else if contains "matched_skills" section_lower then
    GroqResult.mk score (extract_list_items section) mi st ga re oa raw
  else if contains "missing_skills" section_lower then
    GroqResult.mk score ms (extract_list_items section) st ga re oa raw
  else if contains "strengths" section_lower then
    GroqResult.mk score ms mi (extract_list_items section) ga re oa raw
  else if contains "gaps" section_lower then
    GroqResult.mk score ms mi st (extract_list_items section) re oa raw
  else if contains "recommendations" section_lower then
    GroqResult.mk score ms mi st ga (extract_list_items section) oa raw
  else if contains "overall_assessment" section_lower then
    let text := extract_text_after_header section in
    if String.eqb text "" then result else GroqResult.mk score ms mi st ga re text raw
  else result.

Definition parse_groq_response (response : string) : GroqResult.t :=
  let result := GroqResult.mk (PyNum 5) [] [] [] [] [] "Analysis complete." response in
  let sections := split_blank_lines response in
  fold_left parse_section sections result.

End GroqParser.

(** ** Punctuation

    The characters of Python's [string.punctuation]: the ASCII graphic
    characters that are neither letters nor digits (the underscore is one of
    them). *)
Definition is_punctuation (c : ascii) : bool :=
  let n := code c in
  ((33 <=? n) && (n <=? 47) || (58 <=? n) && (n <=? 64)
   || (91 <=? n) && (n <=? 96) || (123 <=? n) && (n <=? 126))%N.

(** ** Concrete inputs *)

(** A text with a name line and no achievements heading. *)
Definition resume_without_achievements : string := "John Smith".

(** A text made of an achievements heading alone, on which every step
    before the persistence succeeds. *)
Definition resume_with_achievements : string := "Achievements:".

(** The three lines of the name example. *)
Definition name_example : string := "John Smith
Software Engineer
john@x.com".

(** A resume whose project line is not under a projects heading. *)
Definition resume_project_outside_section : string := "Resume analyzer using python and fastapi
Achievements:
- Won first place in hackathon 2023".

Definition cpp_csharp_text : string := "C++ c#".

Definition linkedin_profile : OnlineProfile.t :=
  OnlineProfile.mk "LinkedIn" "https://linkedin.com/in/jdoe".

(** A text with an achievements heading and one profile URL. *)
Definition resume_with_link : string := "Achievements:
https://github.com/jdoe".

(** A resume with two skills and a job description that names one of them. *)
Definition resume_python_java : Resume.t :=
  Resume.mk "Jane Doe" "" "" [] None [] ["java"; "python"] None.

Definition jd_python : JobDescription.t := JobDescription.mk "Python developer" "Django and AWS".

(** A text with one GitHub URL. *)
Definition profile_text : string := "Portfolio: https://github.com/jdoe".

(** Two bulleted lines. *)
Definition list_text : string := "- Python" ++ String "010"%char "- Django".

(** 400 distinct two-letter job skills ["aa"], ["ab"], ..., ["pj"], and a
    resume with three of them. *)
Definition two_letter_skill (n : nat) : string :=
  String (ascii_of_nat (97 + n / 26)) (String (ascii_of_nat (97 + n mod 26)) "").
Definition jd_400 : list string := map two_letter_skill (seq 0 400).
Definition resume_3 : list string := ["aa"; "ab"; "ac"].

(** The text of [cpp_csharp_text] with a word character after ["c#"]. *)
Definition cpp_csharp_word_text : string := "c++ c#x".

(** ** Evaluations on concrete inputs *)

Example skills_js : extract_skills_from_text "javascript developer" = ["javascript"].
Proof. vm_compute. reflexivity. Qed.

Example skills_cpp2 : extract_skills_from_text "c++_" = ["c++"].
Proof. vm_compute. reflexivity. Qed.

Example name_ex1 :
  extract_name_robust "John Smith
Software Engineer
john@x.com" = "John Smith Software Engineer".
Proof. vm_compute. reflexivity. Qed.

Example split_ex1 :
  split_resume_by_sections "John Smith
Email: john@x.com" =
  [("contact", "Email: john@x.com"); ("summary", ""); ("education", ""); ("experience", "");
   ("projects", ""); ("skills", ""); ("achievements", ""); ("other", "")].
Proof. vm_compute. reflexivity. Qed.

Example compat_ex :
  compute_compatibility ["Python"; "SQL"; "AWS"] ["python"; "docker"; "sql"]
  = (fl (667 # 100), ["python"; "sql"], ["docker"]).
Proof. vm_compute. reflexivity. Qed.
Example skills_cpp : extract_skills_from_text "C++ and C# and Java" = ["java"].
Proof. vm_compute. reflexivity. Qed.

(** [round(0.125, 2)] and [round(2.675, 2)]: the tie of the exact binary
    value [0.125] goes to the even [0.12], and the float [2.675] lies below
    [2.675]. *)
Example py_round2_ties :
  py_round2 (fl (1 # 8)) = fl (12 # 100) /\ py_round2 (fl (2675 # 1000)) = fl (267 # 100).
Proof. split; vm_compute; reflexivity. Qed.

(** ** Sets and sorting: membership, duplicates, order *)

Definition str_le (a b : string) : Prop := String.leb a b = true.

Lemma mem_In (x : string) (l : list string) : mem x l = true <-> In x l.
Proof.
  unfold mem. rewrite existsb_exists. split.
  - intros [y [Hy Heq]]. apply String.eqb_eq in Heq. subst. exact Hy.
  - intros H. exists x. split; [exact H | apply String.eqb_refl].
Qed.

Lemma mem_false_not_In (x : string) (l : list string) : mem x l = false <-> ~ In x l.
Proof.
  rewrite <- mem_In. destruct (mem x l); split; congruence.
Qed.

Lemma In_dedup (x : string) (l : list string) : In x (dedup l) <-> In x l.
Proof.
  induction l as [|y t IH]; simpl; [tauto|].
  destruct (mem y t) eqn:E.
  - rewrite IH. apply mem_In in E. split; [tauto|]. intros [->|H]; assumption.
  - simpl. rewrite IH. tauto.
Qed.

Lemma NoDup_dedup (l : list string) : NoDup (dedup l).
Proof.
  induction l as [|y t IH]; simpl; [constructor|].
  destruct (mem y t) eqn:E; [exact IH|].
  constructor; [|exact IH].
  rewrite In_dedup. apply mem_false_not_In. exact E.
Qed.

Lemma insert_sorted_perm (x : string) (l : list string) :
  Permutation (insert_sorted x l) (x :: l).
Proof.
  induction l as [|y t IH]; simpl; [constructor; constructor|].
  destruct (String.leb x y); [reflexivity|].
  rewrite IH. apply perm_swap.
Qed.

Lemma sort_perm (l : list string) : Permutation (sort l) l.
Proof.
  induction l as [|x t IH]; simpl; [constructor|].
  rewrite insert_sorted_perm. constructor. exact IH.
Qed.

Lemma In_sort (x : string) (l : list string) : In x (sort l) <-> In x l.
Proof.
  split; apply Permutation_in; [|symmetry]; apply sort_perm.
Qed.

Lemma NoDup_sort (l : list string) : NoDup l -> NoDup (sort l).
Proof.
  intros H. apply (Permutation_NoDup (Permutation_sym (sort_perm l))). exact H.
Qed.

Lemma leb_false_flip (x y : string) : String.leb x y = false -> String.leb y x = true.
Proof.
  intros H. destruct (String.leb_total x y) as [H'|H']; [congruence|exact H'].
Qed.

Lemma insert_sorted_Sorted (x : string) (l : list string) :
  Sorted str_le l -> Sorted str_le (insert_sorted x l).
Proof.
  induction l as [|y t IH]; intros Hs; simpl.
  - constructor; constructor.
  - destruct (String.leb x y) eqn:E.
    + constructor; [exact Hs|constructor; exact E].
    + apply Sorted_inv in Hs as [Ht Hh].
      constructor; [apply IH; exact Ht|].
      destruct t as [|z t']; simpl.
      * constructor. apply leb_false_flip. exact E.
      * destruct (String.leb x z); constructor.
        -- apply leb_false_flip. exact E.
        -- apply HdRel_inv in Hh. exact Hh.
Qed.

Lemma sort_Sorted (l : list string) : Sorted str_le (sort l).
Proof.
  induction l as [|x t IH]; simpl; [constructor|].
  apply insert_sorted_Sorted. exact IH.
Qed.

Lemma In_sort_dedup_filter (p : string -> bool) (x : string) (l : list string) :
  In x (sort (dedup (filter p l))) <-> In x l /\ p x = true.
Proof.
  rewrite In_sort, In_dedup, filter_In. tauto.
Qed.

(** ** Bounds and errors of float rounding *)

Section Binary64_facts.
Local Open Scope Z_scope.

Lemma round_half_even_le (n d N : Z) :
  0 < d -> 0 <= n <= N * d -> 0 <= round_half_even n d <= N.
Proof.
  intros Hd Hn. unfold round_half_even.
  pose proof (Z.div_mod n d ltac:(lia)) as Hdm.
  pose proof (Z.mod_pos_bound n d Hd) as Hr.
  set (q := n / d) in *. set (r := n mod d) in *.
  assert (0 <= q) by nia. assert (q <= N) by nia. assert (q = N -> r = 0) by nia.
  destruct (2 * r <? d) eqn:E1; [lia|]. apply Z.ltb_ge in E1.
  destruct (d <? 2 * r) eqn:E2; [lia|].
  destruct (Z.even q); lia.
Qed.

Lemma round_half_even_error (n d : Z) :
  0 < d -> 2 * Z.abs (round_half_even n d * d - n) <= d.
Proof.
  intros Hd. unfold round_half_even.
  pose proof (Z.div_mod n d ltac:(lia)) as Hdm.
  pose proof (Z.mod_pos_bound n d Hd) as Hr.
  set (q := n / d) in *. set (r := n mod d) in *.
  destruct (2 * r <? d) eqn:E1; [apply Z.ltb_lt in E1; lia|]. apply Z.ltb_ge in E1.
  destruct (d <? 2 * r) eqn:E2; [apply Z.ltb_lt in E2; lia|]. apply Z.ltb_ge in E2.
  destruct (Z.even q); lia.
Qed.

(** The exponent of the last mantissa bit is at most [-48] below [10]. *)
Lemma fl_pos_exponent (a b : positive) :
  Zpos a <= 10 * Zpos b ->
  let n := Z.log2 (Zpos a) - Z.log2 (Zpos b) in
  let f := if pow2_le n a b then n else n - 1 in
  Z.max (f - 52) (-1074) <= -48.
Proof.
  intros H n f.
  assert (Hn : n <= 4).
  { unfold n.
    assert (H1 : Z.log2 (Zpos a) <= Z.log2 (16 * Zpos b)) by (apply Z.log2_le_mono; lia).
    replace (16 * Zpos b) with (Zpos b * 2 ^ 4) in H1 by ring.
    rewrite Z.log2_mul_pow2 in H1 by lia. lia. }
  unfold f. destruct (pow2_le n a b); lia.
Qed.

Lemma fl_pos_cases (a b : positive) :
  Zpos a <= 10 * Zpos b ->
  exists k, 48 <= k /\ fl_pos a b = round_half_even (Zpos a * 2 ^ k) (Zpos b) # Z.to_pos (2 ^ k).
Proof.
  intros H. pose proof (fl_pos_exponent a b H) as He. cbv zeta in He.
  unfold fl_pos. cbv zeta.
  set (e := Z.max _ _) in *.
  exists (- e). split; [lia|].
  destruct (e <=? 0) eqn:E; [reflexivity|apply Z.leb_gt in E; lia].
Qed.

Lemma pow2_pos_id (k : Z) : 0 <= k -> Zpos (Z.to_pos (2 ^ k)) = 2 ^ k.
Proof. intros Hk. apply Z2Pos.id. apply Z.pow_pos_nonneg; lia. Qed.

Lemma fl_pos_range (a b : positive) (B : Z) :
  1 <= B <= 10 -> Zpos a <= B * Zpos b -> (0 <= fl_pos a b <= inject_Z B)%Q.
Proof.
  intros HB H.
  destruct (fl_pos_cases a b ltac:(nia)) as [k [Hk ->]].
  assert (Hp : 0 < 2 ^ k) by (apply Z.pow_pos_nonneg; lia).
  pose proof (round_half_even_le (Zpos a * 2 ^ k) (Zpos b) (B * 2 ^ k) ltac:(lia) ltac:(nia)) as Hr.
  unfold Qle; cbn [Qnum Qden inject_Z]. rewrite pow2_pos_id by lia. lia.
Qed.

Lemma fl_pos_error (a b : positive) :
  Zpos a <= 10 * Zpos b -> (Qabs (fl_pos a b - (Zpos a # b)) <= 1 # 562949953421312)%Q.
Proof.
  intros H.
  destruct (fl_pos_cases a b H) as [k [Hk ->]].
  assert (Hp : 2 ^ 48 <= 2 ^ k) by (apply Z.pow_le_mono_r; lia).
  pose proof (round_half_even_error (Zpos a * 2 ^ k) (Zpos b) ltac:(lia)) as Hr.
  set (m := round_half_even _ _) in *.
  apply Qabs_Qle_condition. unfold Qminus, Qplus, Qopp, Qle; cbn [Qnum Qden].
  rewrite Pos2Z.inj_mul, pow2_pos_id by lia.
  change (Zpos 562949953421312) with (2 ^ 49). change (2 ^ 49) with (2 * 2 ^ 48).
  split; nia.
Qed.

Lemma fl_range (q : Q) (B : Z) :
  1 <= B <= 10 -> (0 <= q <= inject_Z B)%Q -> (0 <= fl q <= inject_Z B)%Q.
Proof.
  intros HB Hq. unfold fl.
  pose proof (Qred_correct q) as Hr.
  destruct (Qred q) as [[|a|a] b] eqn:E; cbn [Qnum Qden].
  - unfold Qle; simpl; lia.
  - apply fl_pos_range; [exact HB|]. rewrite <- Hr in Hq.
    destruct Hq as [_ Hq]. unfold Qle in Hq; cbn [Qnum Qden inject_Z] in Hq. lia.
  - rewrite <- Hr in Hq. destruct Hq as [Hq _]. unfold Qle in Hq; simpl in Hq. lia.
Qed.

Lemma fl_error (q : Q) :
  (0 <= q <= 10)%Q -> (Qabs (fl q - q) <= 1 # 562949953421312)%Q.
Proof.
  intros Hq. unfold fl.
  pose proof (Qred_correct q) as Hr.
  destruct (Qred q) as [[|a|a] b] eqn:E; cbn [Qnum Qden].
  - rewrite <- Hr. apply Qabs_Qle_condition. unfold Qle, Qminus, Qplus, Qopp; simpl; lia.
  - rewrite <- Hr. apply fl_pos_error. rewrite <- Hr in Hq.
    destruct Hq as [_ Hq]. unfold Qle in Hq; simpl in Hq. lia.
  - rewrite <- Hr in Hq. destruct Hq as [Hq _]. unfold Qle in Hq; simpl in Hq. lia.
Qed.

Lemma fl_proper (q q' : Q) : (q == q')%Q -> fl q = fl q'.
Proof. intros H. unfold fl. rewrite (Qred_complete q q' H). reflexivity. Qed.

Lemma round2_Qred_range (x : Q) (B : Z) :
  0 <= B -> (0 <= x <= inject_Z B)%Q -> (0 <= round2 (Qred x) <= inject_Z B)%Q.
Proof.
  intros HB Hx. rewrite <- (Qred_correct x) in Hx.
  destruct (Qred x) as [n d]. unfold round2. cbn [Qnum Qden].
  destruct Hx as [H1 H2]. unfold Qle in H1, H2 |- *; cbn [Qnum Qden inject_Z] in *.
  pose proof (round_half_even_le (n * 100) (Zpos d) (B * 100) ltac:(lia) ltac:(nia)). lia.
Qed.

Lemma round2_Qred_error (x : Q) : (Qabs (round2 (Qred x) - x) <= 1 # 200)%Q.
Proof.
  rewrite <- (Qred_correct x) at 2.
  destruct (Qred x) as [n d]. unfold round2. cbn [Qnum Qden].
  pose proof (round_half_even_error (n * 100) (Zpos d) ltac:(lia)) as Hr.
  set (m := round_half_even _ _) in *.
  apply Qabs_Qle_condition. unfold Qminus, Qplus, Qopp, Qle; cbn [Qnum Qden].
  rewrite Pos2Z.inj_mul. split; nia.
Qed.

Lemma py_round2_range (x : Q) (B : Z) :
  1 <= B <= 10 -> (0 <= x <= inject_Z B)%Q -> (0 <= py_round2 x <= inject_Z B)%Q.
Proof.
  intros HB Hx. unfold py_round2. apply fl_range; [exact HB|].
  apply round2_Qred_range; [lia|exact Hx].
Qed.

Lemma py_round2_error (x : Q) :
  (0 <= x <= 10)%Q -> (Qabs (py_round2 x - x) <= (1 # 200) + (1 # 562949953421312))%Q.
Proof.
  intros Hx. unfold py_round2.
  pose proof (round2_Qred_range x 10 ltac:(lia) Hx) as H1.
  pose proof (fl_error _ H1) as H2.
  pose proof (round2_Qred_error x) as H3.
  apply Qabs_Qle_condition in H2, H3. apply Qabs_Qle_condition. lra.
Qed.

Lemma py_round2_proper (x y : Q) : (x == y)%Q -> py_round2 x = py_round2 y.
Proof. intros H. unfold py_round2. rewrite (Qred_complete x y H). reflexivity. Qed.

(** The score [round(10.0 * (k / d), 2)] for [0 <= k <= d], [0 < d]. *)
Lemma float_score_bounds (k d : Z) :
  0 < d -> 0 <= k <= d ->
  let score := py_round2 (fmul 10 (fdiv (inject_Z k) (inject_Z d))) in
  (0 <= score <= 10)%Q
  /\ (Qabs (score - (10 * k # Z.to_pos d)) <= (1 # 200) + (1 # 10000000000000))%Q.
Proof.
  intros Hd Hk. cbv zeta.
  assert (Hq : (inject_Z k / inject_Z d == k # Z.to_pos d)%Q).
  { destruct d as [|p|p]; try lia. unfold Qdiv, Qinv, Qmult, Qeq; simpl. lia. }
  assert (Hq01 : (0 <= inject_Z k / inject_Z d <= inject_Z 1)%Q).
  { rewrite Hq. unfold Qle; simpl. rewrite Z2Pos.id by lia. lia. }
  unfold fdiv, fmul.
  set (x := fl (inject_Z k / inject_Z d)).
  pose proof (fl_range _ 1 ltac:(lia) Hq01) as Hx.
  pose proof (fl_error (inject_Z k / inject_Z d) ltac:(unfold inject_Z in *; lra)) as Ex.
  fold x in Hx, Ex.
  assert (H10 : (0 <= 10 * x <= inject_Z 10)%Q) by (unfold inject_Z in *; lra).
  set (y := fl (10 * x)).
  pose proof (fl_range _ 10 ltac:(lia) H10) as Hy.
  pose proof (fl_error (10 * x) ltac:(unfold inject_Z in *; lra)) as Ey.
  fold y in Hy, Ey.
  split; [apply py_round2_range; [lia|exact Hy]|].
  pose proof (py_round2_error y ltac:(unfold inject_Z in *; lra)) as Er.
  assert (Hk10 : (10 * k # Z.to_pos d == 10 * (k # Z.to_pos d))%Q)
    by (unfold Qeq, Qmult; simpl; lia).
  rewrite Hk10, <- Hq.
  apply Qabs_Qle_condition in Ex, Ey, Er. apply Qabs_Qle_condition. lra.
Qed.

Lemma float_score_nat (k d : nat) :
  (0 < d)%nat -> (k <= d)%nat ->
  let score := py_round2 (fmul 10 (fdiv (inject_Z (Z.of_nat k)) (inject_Z (Z.of_nat d)))) in
  (0 <= score <= 10)%Q
  /\ (Qabs (score - (Z.of_nat (10 * k) # Pos.of_nat d)) <= (1 # 200) + (1 # 10000000000000))%Q.
Proof.
  intros Hd Hk.
  replace (Z.of_nat (10 * k) # Pos.of_nat d)%Q with (10 * Z.of_nat k # Z.to_pos (Z.of_nat d))%Q.
  - apply float_score_bounds; lia.
  - destruct d as [|d]; [lia|]. f_equal; [lia|].
    rewrite <- Pos.of_nat_succ. reflexivity.
Qed.

Lemma fmul_comm (x y : Q) : fmul x y = fmul y x.
Proof. unfold fmul. apply fl_proper, Qmult_comm. Qed.

Lemma float_score_full (d : nat) :
  (0 < d)%nat ->
  (py_round2 (fmul 10 (fdiv (inject_Z (Z.of_nat d)) (inject_Z (Z.of_nat d)))) == 10)%Q.
Proof.
  intros Hd. unfold fdiv.
  rewrite (fl_proper _ 1)
    by (destruct d as [|d]; [lia|]; unfold Qdiv, Qinv, Qmult, Qeq; simpl; lia).
  unfold fmul. rewrite (fl_proper _ 10) by (vm_compute; reflexivity).
  rewrite (py_round2_proper _ 10) by (vm_compute; reflexivity).
  vm_compute. reflexivity.
Qed.

Lemma float_score_zero (d : nat) :
  (py_round2 (fmul 10 (fdiv (inject_Z (Z.of_nat 0)) (inject_Z (Z.of_nat d)))) == 0)%Q.
Proof.
  unfold fdiv. rewrite (fl_proper _ 0) by (unfold Qdiv; rewrite Qmult_0_l; reflexivity).
  vm_compute. reflexivity.
Qed.

End Binary64_facts.

(** ** Claims *)

(** C2, counterexample: with 3 of 400 distinct job skills matched, the
    exact score [10 * 3 / 400] is [0.075], [0.08] when rounded to two
    decimals under either tie rule, but the code returns the float [0.07]:
    the float [3 / 400] lies below [0.0075], and [10.0] times it below
    [0.075]. *)
Lemma compatibility_score_float_rounding :
  match compute_compatibility resume_3 jd_400 with
  | (score, matched, missing) =>
      List.length matched = 3 /\ List.length (dedup (map lower jd_400)) = 400
      /\ score = fl (7 # 100)
      /\ round2 (Z.of_nat (10 * List.length matched)
                 # Pos.of_nat (Nat.max 1 (List.length (dedup (map lower jd_400))))) = 8 # 100
      /\ ~ (score == 8 # 100)%Q
      /\ score <> fl (8 # 100)
  end.
Proof.
  vm_compute. split; [reflexivity|]. split; [reflexivity|]. split; [reflexivity|].
  split; [reflexivity|]. split; intros H; discriminate H.
Qed.

(** C2, amended: for all resume skills [R] and job skills [J],
    [compute_compatibility] returns [(score, matched, missing)] where
    [matched] is the sorted, duplicate-free case-insensitive intersection
    of [R] and [J], [missing] the sorted, duplicate-free lower-cased
    [J]-skills absent from the lower-cased [R], [score] is the float
    [round(10.0 * (|matched| / max(1, |set of lower-cased J|)), 2)], within
    [0.005 + 10^-13] of the exact ratio [10 * |matched| / max(1, |J|)] and
    in [[0, 10]], [matched] and [missing] are disjoint, and an empty [J]
    gives the score [0]. *)
Theorem compute_compatibility_spec (resume_skills jd_skills : list string) :
  match compute_compatibility resume_skills jd_skills with
  | (score, matched, missing) =>
      let R := map lower resume_skills in
      let J := map lower jd_skills in
      Sorted str_le matched /\ NoDup matched
      /\ (forall s, In s matched <-> In s R /\ In s J)
      /\ Sorted str_le missing /\ NoDup missing
      /\ (forall s, In s missing <-> In s J /\ ~ In s R)
      /\ score = py_round2 (fmul 10 (fdiv (inject_Z (Z.of_nat (List.length matched)))
                                         (inject_Z (Z.of_nat (Nat.max 1 (List.length (dedup J)))))))
      /\ (Qabs (score - (Z.of_nat (10 * List.length matched)
                         # Pos.of_nat (Nat.max 1 (List.length (dedup J)))))
          <= (1 # 200) + (1 # 10000000000000))%Q
      /\ (0 <= score <= 10)%Q
      /\ (forall s, In s matched -> ~ In s missing)
      /\ (jd_skills = [] -> score == 0)%Q
  end.
Proof.
  unfold compute_compatibility.
  set (rs := dedup (map lower resume_skills)).
  set (js := dedup (map lower jd_skills)).
  set (matched := sort (filter (fun s => mem s js) rs)).
  set (missing := sort (filter (fun s => negb (mem s rs)) js)).
  cbv zeta.
  assert (Hm : forall s, In s matched <-> In s (map lower resume_skills) /\ In s (map lower jd_skills)).
  { intros s. unfold matched. rewrite In_sort, filter_In, mem_In.
    unfold rs, js. rewrite !In_dedup. tauto. }
  assert (Hx : forall s, In s missing <-> In s (map lower jd_skills) /\ ~ In s (map lower resume_skills)).
  { intros s. unfold missing. rewrite In_sort, filter_In, negb_true_iff, mem_false_not_In.
    unfold rs, js. rewrite !In_dedup. tauto. }
  assert (Hmnd : NoDup matched).
  { apply NoDup_sort, NoDup_filter, NoDup_dedup. }
  assert (Hlen : (List.length matched <= List.length js)%nat).
  { apply NoDup_incl_length; [exact Hmnd|].
    intros s Hs. apply Hm in Hs. unfold js. apply In_dedup. tauto. }
  split; [apply sort_Sorted|].
  split; [exact Hmnd|].
  split; [exact Hm|].
  split; [apply sort_Sorted|].
  split; [apply NoDup_sort, NoDup_filter, NoDup_dedup|].
  split; [exact Hx|].
  split; [reflexivity|].
  destruct (float_score_nat (List.length matched) (Nat.max 1 (List.length js)) ltac:(lia) ltac:(lia))
    as [Hb He].
  split; [exact He|].
  split; [exact Hb|].
  split.
  - intros s H1 H2. apply Hm in H1. apply Hx in H2. tauto.
  - intros ->.
    assert (Hnil : matched = []).
    { clearbody matched. destruct matched as [|a l]; [reflexivity|].
      exfalso. specialize (Hm a). simpl in Hm. tauto. }
    rewrite Hnil. unfold js. reflexivity.
Qed.

Lemma compute_compatibility_spec_witness :
  match compute_compatibility ["Python"; "SQL"; "AWS"] ["python"; "docker"; "sql"] with
  | (score, _, _) => (0 <= score <= 10)%Q
  end.
Proof.
  pose proof (compute_compatibility_spec ["Python"; "SQL"; "AWS"] ["python"; "docker"; "sql"]) as H.
  destruct (compute_compatibility _ _) as [[score matched] missing].
  destruct H as (_ & _ & _ & _ & _ & _ & _ & _ & Hb & _). exact Hb.
Defined.

(** C1 (code_bug): [extract_resume_info] raises [IndexError] on every text
    whose segmented achievements section is empty, whatever the email and
    phone searches and the persistence step do: the empty section is split
    into one empty line and [line[0]] is evaluated on it. *)
Theorem extract_resume_info_raises_without_achievements
  (extract_email extract_phone : string -> string)
  (save_extracted_data : string -> Resume.t -> result unit) (text : string) :
  dict_get "achievements" (split_resume_by_sections text) text = "" ->
  extract_resume_info extract_email extract_phone save_extracted_data text = Exc IndexError.
Proof.
  intros H. unfold extract_resume_info, build_resume. cbv zeta.
  rewrite H. reflexivity.
Qed.

Lemma extract_resume_info_raises_without_achievements_witness :
  dict_get "achievements" (split_resume_by_sections resume_without_achievements)
           resume_without_achievements = ""
  /\ extract_resume_info (fun _ => "") (fun _ => "") (fun _ _ => Ok tt)
       resume_without_achievements = Exc IndexError.
Proof.
  split; [vm_compute; reflexivity|].
  apply extract_resume_info_raises_without_achievements.
  vm_compute. reflexivity.
Defined.

(** C3 (code_bug): on the two-line text ["John Smith\nEmail: john@x.com"]
    the second line is a contact header, the contact section is assigned a
    second time, and the line ["John Smith"] is in no section's content. *)
Theorem split_resume_by_sections_drops_line :
  let sections := split_resume_by_sections "John Smith
Email: john@x.com" in
  sections =
    [("contact", "Email: john@x.com"); ("summary", ""); ("education", ""); ("experience", "");
     ("projects", ""); ("skills", ""); ("achievements", ""); ("other", "")]
  /\ forallb (fun kv => negb (mem "John Smith" (split_on "010"%char (snd kv)))) sections = true.
Proof. vm_compute. split; reflexivity. Qed.

(** C4, counterexample: with a persistence step that raises [OSError], the
    extraction of ["Achievements:"] builds its record and then raises
    [OSError] to the caller instead of returning the record. *)
Lemma persistence_failure_propagates :
  exists r,
    build_resume (fun _ => "") (fun _ => "") resume_with_achievements = Ok r
    /\ extract_resume_info (fun _ => "") (fun _ => "") (fun _ _ => Exc OSError)
         resume_with_achievements = Exc OSError.
Proof. eexists. split; vm_compute; reflexivity. Qed.

(** C4, amended: [extract_resume_info] does not catch failures of
    [save_extracted_data]. When the record is built, the call returns the
    record unchanged if the persistence succeeds and raises the persistence
    step's exception if it fails. *)
Theorem extract_resume_info_persistence
  (extract_email extract_phone : string -> string)
  (save_extracted_data : string -> Resume.t -> result unit) (text : string) (r : Resume.t) :
  build_resume extract_email extract_phone text = Ok r ->
  (save_extracted_data text r = Ok tt ->
     extract_resume_info extract_email extract_phone save_extracted_data text = Ok r)
  /\ (forall e, save_extracted_data text r = Exc e ->
     extract_resume_info extract_email extract_phone save_extracted_data text = Exc e).
Proof.
  intros Hb. unfold extract_resume_info. rewrite Hb. simpl.
  split.
  - intros Hs. rewrite Hs. reflexivity.
  - intros e Hs. rewrite Hs. reflexivity.
Qed.

Lemma extract_resume_info_persistence_witness :
  exists r,
    build_resume (fun _ => "") (fun _ => "") resume_with_achievements = Ok r
    /\ extract_resume_info (fun _ => "") (fun _ => "") (fun _ _ => Exc OSError)
         resume_with_achievements = Exc OSError.
Proof.
  eexists. split.
  - vm_compute. reflexivity.
  - apply (extract_resume_info_persistence (fun _ => "") (fun _ => "") (fun _ _ => Exc OSError)
             resume_with_achievements _ ltac:(vm_compute; reflexivity)).
    reflexivity.
Defined.

(** C7, counterexample: on the lines ["John Smith"], ["Software Engineer"],
    ["john@x.com"] the name extractor does not return ["John Smith"]. *)
Lemma extract_name_example_not_john_smith :
  extract_name_robust name_example <> "John Smith".
Proof. vm_compute. discriminate. Qed.

(** C7, amended: the first two lines are both name candidates of at most
    three words whose concatenation has four words, so the extractor returns
    the combination ["John Smith Software Engineer"]. *)
Theorem extract_name_example :
  extract_name_robust name_example = "John Smith Software Engineer".
Proof. vm_compute. reflexivity. Qed.

(** C8 (code_bug): the projects section of this resume is empty, yet the
    projects of the extracted record are empty while project extraction on
    the whole text finds a project: [sections.get("projects", text)] returns
    the empty section, never the whole text. *)
Theorem extract_resume_info_no_project_fallback
  (extract_email extract_phone : string -> string) :
  dict_get "projects" (split_resume_by_sections resume_project_outside_section)
           resume_project_outside_section = ""
  /\ exists r,
    extract_resume_info extract_email extract_phone (fun _ _ => Ok tt)
      resume_project_outside_section = Ok r
    /\ Resume.projects r = []
    /\ extract_projects_from_text resume_project_outside_section <> [].
Proof.
  split; [vm_compute; reflexivity|].
  eexists. split; [vm_compute; reflexivity|].
  split; [reflexivity|]. vm_compute. discriminate.
Qed.

(** ** Occurrences and word boundaries *)

Lemma get_drop (i k : nat) (s : string) :
  String.get k (drop i s) = String.get (i + k) s.
Proof.
  revert s. induction i as [|i IH]; intros s; [reflexivity|].
  destruct s as [|c s']; simpl.
  - destruct k; reflexivity.
  - apply IH.
Qed.

Lemma prefix_get (pat t : string) (k : nat) :
  String.prefix pat t = true -> k < String.length pat -> String.get k t = String.get k pat.
Proof.
  revert t k. induction pat as [|c pat IH]; intros t k Hp Hk; simpl in Hk; [lia|].
  destruct t as [|d t']; simpl in Hp; [discriminate|].
  destruct (Ascii.ascii_dec c d) as [<-|]; [|discriminate].
  destruct k as [|k]; simpl; [reflexivity|].
  apply IH; [exact Hp|lia].
Qed.

Lemma occurs_at_get (pat s : string) (i k : nat) :
  occurs_at pat s i = true -> k < String.length pat ->
  String.get (i + k) s = String.get k pat.
Proof.
  unfold occurs_at. intros Hp Hk. rewrite <- get_drop. apply prefix_get; assumption.
Qed.

Lemma search_bounded_occurrence (tech s : string) :
  search_bounded tech s = true ->
  exists i, occurs_at tech s i = true /\ boundary s i = true
            /\ boundary s (i + String.length tech) = true.
Proof.
  unfold search_bounded. rewrite existsb_exists.
  intros [i [_ H]]. exists i.
  apply andb_prop in H as [H H2]. apply andb_prop in H as [H H1].
  repeat split; assumption.
Qed.

Lemma In_extract_skills (text t : string) :
  In t (extract_skills_from_text text) <->
  In t TECH_WORDS /\ search_bounded t (lower text) = true.
Proof.
  unfold extract_skills_from_text. cbv zeta.
  apply (In_sort_dedup_filter (fun tech => search_bounded tech (lower text))).
Qed.

Lemma boundary_start (s : string) (i : nat) :
  boundary s i = true -> word_at s i = true -> word_before s i = false.
Proof.
  unfold boundary. destruct (word_before s i), (word_at s i); simpl; congruence.
Qed.

Lemma boundary_end (s : string) (i : nat) :
  boundary s i = true -> word_before s i = true -> word_at s i = false.
Proof.
  unfold boundary. destruct (word_before s i), (word_at s i); simpl; congruence.
Qed.

Lemma occurs_at_bound (pat s : string) (i : nat) :
  pat <> "" -> occurs_at pat s i = true -> i < String.length s.
Proof.
  unfold occurs_at. intros Hne. revert s.
  induction i as [|i IH]; intros s H; destruct s as [|c s']; simpl in *.
  - destruct pat; [congruence|discriminate].
  - lia.
  - destruct pat; [congruence|discriminate].
  - apply IH in H. lia.
Qed.

(** The last character of a detected term ending in ['+'] or ['#']: [\b]
    after it holds only before a [\w] character. *)
Lemma search_bounded_symbol_end (tech s : string) (n : nat) (c : ascii) :
  String.length tech = S n -> String.get n tech = Some c -> is_word c = false ->
  search_bounded tech s = true ->
  exists i, occurs_at tech s i = true /\ word_at s (i + String.length tech) = true.
Proof.
  intros Hlen Hc Hw Hs.
  destruct (search_bounded_occurrence tech s Hs) as [i [Ho [_ Hb]]].
  exists i. split; [exact Ho|].
  destruct (word_at s (i + String.length tech)) eqn:E; [reflexivity|].
  exfalso. unfold boundary in Hb. rewrite E in Hb.
  rewrite Hlen in Hb. replace (i + S n) with (S (i + n)) in Hb by lia.
  simpl in Hb. unfold word_at in Hb.
  rewrite (occurs_at_get tech s i n Ho ltac:(lia)), Hc, Hw in Hb. discriminate.
Qed.

(** C5, counterexample: ["java"] is detected by the resume extractor but
    not by the job-description extractor on the same text. *)
Lemma jd_vocabulary_differs :
  extract_skills_from_text "java" = ["java"]
  /\ SkillMatcher.extract_skills_from_text "java" = [].
Proof. split; vm_compute; reflexivity. Qed.

(** C5, amended: job-description skills are drawn from
    [DEFAULT_SKILL_VOCAB], an 18-term vocabulary contained in the resume
    vocabulary [TECH_WORDS]; a resume term outside it, such as ["java"], is
    never detected in a job description. *)
Theorem jd_skills_vocabulary (text : string) :
  incl (SkillMatcher.extract_skills_from_text text) SkillMatcher.DEFAULT_SKILL_VOCAB
  /\ incl SkillMatcher.DEFAULT_SKILL_VOCAB TECH_WORDS
  /\ In "java" TECH_WORDS
  /\ ~ In "java" (SkillMatcher.extract_skills_from_text text).
Proof.
  assert (Hsub : forall s, In s (SkillMatcher.extract_skills_from_text text) ->
                 In s SkillMatcher.DEFAULT_SKILL_VOCAB).
  { intros s Hs. unfold SkillMatcher.extract_skills_from_text in Hs.
    rewrite In_sort, filter_In in Hs. tauto. }
  split; [exact Hsub|].
  split.
  - intros s Hs.
    assert (Hall : forallb (fun x => mem x TECH_WORDS) SkillMatcher.DEFAULT_SKILL_VOCAB = true)
      by (vm_compute; reflexivity).
    rewrite forallb_forall in Hall. apply mem_In, Hall, Hs.
  - split; [simpl; tauto|].
    intros Hj. apply Hsub in Hj. simpl in Hj.
    repeat (destruct Hj as [Hj|Hj]; [discriminate Hj|]). exact Hj.
Qed.

(** C6: on ["javascript developer"] the extractor detects ["javascript"]
    and not ["java"]; and in general every detected term is a vocabulary
    term occurring in the lower-cased text at a position where it does not
    continue a run of word ([\w]) characters: when it starts with a word
    character the character before it is not one, and when it ends with a
    word character the character after it is not one. *)
Theorem extract_skills_word_boundary_safe :
  In "javascript" (extract_skills_from_text "javascript developer")
  /\ ~ In "java" (extract_skills_from_text "javascript developer")
  /\ forall text t,
       In t (extract_skills_from_text text) ->
       In t TECH_WORDS
       /\ exists i, occurs_at t (lower text) i = true
            /\ (word_at (lower text) i = true -> word_before (lower text) i = false)
            /\ (word_before (lower text) (i + String.length t) = true ->
                word_at (lower text) (i + String.length t) = false).
Proof.
  split; [vm_compute; tauto|].
  split; [vm_compute; intros [H|H]; [discriminate|exact H]|].
  intros text t Ht. apply In_extract_skills in Ht as [Hin Hs].
  split; [exact Hin|].
  destruct (search_bounded_occurrence t (lower text) Hs) as [i [Ho [Hb1 Hb2]]].
  exists i. split; [exact Ho|]. split.
  - apply boundary_start. exact Hb1.
  - apply boundary_end. exact Hb2.
Qed.

Lemma extract_skills_word_boundary_safe_witness :
  In "javascript" (extract_skills_from_text "javascript developer")
  /\ In "javascript" TECH_WORDS.
Proof.
  pose proof extract_skills_word_boundary_safe as [H1 [_ H3]].
  split; [exact H1|].
  apply (H3 "javascript developer" "javascript" H1).
Defined.

(** C10, counterexample: in ["c++_"] the only occurrence of ["c++"] is
    followed by ['_'], a punctuation character, and ["c#"] does not occur,
    yet ["c++"] is detected: ['_'] is a [\w] character, so [\b] holds
    after the second ['+']. *)
Lemma cpp_before_underscore_detected :
  (forall i, occurs_at "c++" (lower "c++_") i = true ->
     i + 3 = String.length (lower "c++_")
     \/ exists c, String.get (i + 3) (lower "c++_") = Some c
                  /\ (is_space c || is_punctuation c) = true)
  /\ (forall i, occurs_at "c#" (lower "c++_") i = false)
  /\ In "c++" (extract_skills_from_text "c++_").
Proof.
  split; [|split].
  - intros i H.
    pose proof (occurs_at_bound "c++" _ _ ltac:(discriminate) H) as Hb. vm_compute in Hb.
    destruct i as [|[|[|[|i]]]]; vm_compute in H; try discriminate; [|lia].
    right. exists "_"%char. split; reflexivity.
  - intros i. destruct i as [|[|[|[|[|i]]]]]; reflexivity.
  - vm_compute. tauto.
Qed.

(** C10, amended: when every occurrence of ["c++"] in the lower-cased text
    is at its end or followed by a character that is not a [\w] character
    (letter, digit or underscore), the extractor does not detect ["c++"];
    and, independently, the same holds of ["c#"]: [\b] after a trailing
    ['+'] or ['#'] holds only before a [\w] character. *)
Theorem extract_skills_cpp_csharp_need_word_after (text : string) :
  ((forall i, occurs_at "c++" (lower text) i = true -> word_at (lower text) (i + 3) = false) ->
   ~ In "c++" (extract_skills_from_text text))
  /\ ((forall i, occurs_at "c#" (lower text) i = true -> word_at (lower text) (i + 2) = false) ->
      ~ In "c#" (extract_skills_from_text text)).
Proof.
  split; intros H Hin; apply In_extract_skills in Hin as [_ Hs].
  - destruct (search_bounded_symbol_end "c++" _ 2 "+"%char eq_refl eq_refl eq_refl Hs)
      as [i [Ho Hw]].
    simpl String.length in Hw. rewrite (H i Ho) in Hw. discriminate.
  - destruct (search_bounded_symbol_end "c#" _ 1 "#"%char eq_refl eq_refl eq_refl Hs)
      as [i [Ho Hw]].
    simpl String.length in Hw. rewrite (H i Ho) in Hw. discriminate.
Qed.

Lemma extract_skills_cpp_csharp_need_word_after_witness :
  ~ In "c++" (extract_skills_from_text cpp_csharp_word_text)
  /\ In "c#" (extract_skills_from_text cpp_csharp_word_text)
  /\ ~ In "c#" (extract_skills_from_text cpp_csharp_text).
Proof.
  split; [|split].
  - apply (proj1 (extract_skills_cpp_csharp_need_word_after cpp_csharp_word_text)).
    intros i H.
    pose proof (occurs_at_bound "c++" _ _ ltac:(discriminate) H) as Hb. vm_compute in Hb.
    destruct i as [|[|[|[|[|[|[|[|i]]]]]]]]; vm_compute in H; try discriminate; try lia.
    reflexivity.
  - vm_compute. tauto.
  - apply (proj2 (extract_skills_cpp_csharp_need_word_after cpp_csharp_text)).
    intros i H.
    pose proof (occurs_at_bound "c#" _ _ ltac:(discriminate) H) as Hb. vm_compute in Hb.
    destruct i as [|[|[|[|[|[|i]]]]]]; vm_compute in H; try discriminate; try lia.
    reflexivity.
Defined.

(** ** The hyperlink merge *)

Lemma existsb_url_In (ps : list OnlineProfile.t) (u : string) :
  existsb (fun p => String.eqb (OnlineProfile.url p) u) ps = true <-> In u (urls ps).
Proof.
  unfold urls. rewrite existsb_exists, in_map_iff. split.
  - intros [p [Hp He]]. apply String.eqb_eq in He. exists p. tauto.
  - intros [p [He Hp]]. exists p. split; [exact Hp|]. apply String.eqb_eq. exact He.
Qed.

(** One step of the merge appends nothing or the new profile. *)
Lemma merge_step_app (ps : list OnlineProfile.t) (t u : string) :
  (u <> "" /\ ~ In u (urls ps) /\
   merge_step ps (t, u) = (ps ++ [OnlineProfile.mk (label_url u) u])%list)
  \/ ((u = "" \/ In u (urls ps)) /\ merge_step ps (t, u) = ps).
Proof.
  unfold merge_step.
  destruct (String.eqb u "") eqn:E1; simpl.
  - right. apply String.eqb_eq in E1. tauto.
  - destruct (existsb (fun p => String.eqb (OnlineProfile.url p) u) ps) eqn:E2; simpl.
    + right. apply existsb_url_In in E2. tauto.
    + left. apply String.eqb_neq in E1. split; [exact E1|]. split; [|reflexivity].
      intros H. apply existsb_url_In in H. congruence.
Qed.

Lemma fold_merge_spec (links : list (string * string)) (ps : list OnlineProfile.t) :
  exists added,
    fold_left merge_step links ps = (ps ++ added)%list
    /\ (forall p, In p added -> OnlineProfile.label p = label_url (OnlineProfile.url p))
    /\ (forall u, In u (urls added) <-> u <> "" /\ ~ In u (urls ps) /\ In u (map snd links))
    /\ NoDup (urls added).
Proof.
  revert ps. induction links as [|[t u] rest IH]; intros ps; cbn [fold_left map].
  - exists []. rewrite app_nil_r. repeat split; simpl; try tauto; constructor.
  - destruct (merge_step_app ps t u) as [[Hu [Hn ->]] | [Hc ->]].
    + destruct (IH ((ps ++ [OnlineProfile.mk (label_url u) u])%list)) as [added [Hf [Hl [Hi Hd]]]].
      exists (OnlineProfile.mk (label_url u) u :: added).
      rewrite Hf, <- app_assoc. split; [reflexivity|].
      split; [intros p [<-|Hp]; [reflexivity|apply Hl, Hp]|].
      split.
      * intros v. simpl. rewrite Hi. unfold urls. rewrite map_app, in_app_iff. simpl.
        destruct (string_dec u v) as [->|Hne].
        -- fold (urls ps). tauto.
        -- fold (urls ps). split; [intros [H|H]; [congruence|tauto]|].
           intros [Hv [Hp [H|H]]]; [congruence|]. right.
           split; [exact Hv|]. split; [|exact H]. intros [H'|[H'|[]]]; congruence.
      * simpl. constructor; [|exact Hd].
        rewrite Hi. unfold urls. rewrite map_app, in_app_iff. simpl. tauto.
    + destruct (IH ps) as [added [Hf [Hl [Hi Hd]]]].
      exists added. split; [exact Hf|]. split; [exact Hl|]. split; [|exact Hd].
      intros v. rewrite Hi. simpl. split; [tauto|].
      intros [Hv [Hp [H|H]]]; [|tauto]. simpl in H. subst v. tauto.
Qed.

(** C9: merging a hyperlink list appends profiles only: the appended
    profiles carry the label [label_url] gives their URL, and their URLs are
    exactly the non-empty hyperlink URLs that no profile of the record has,
    each once. In particular a hyperlink whose URL is already a profile's URL
    adds nothing. *)
Theorem merge_hyperlinks_spec (ps : list OnlineProfile.t) (hyperlinks : list (string * string)) :
  exists added,
    merge_hyperlinks ps hyperlinks = (ps ++ added)%list
    /\ (forall p, In p added -> OnlineProfile.label p = label_url (OnlineProfile.url p))
    /\ (forall u, In u (urls added) <->
                  u <> "" /\ ~ In u (urls ps) /\ In u (map snd hyperlinks))
    /\ NoDup (urls added).
Proof.
  unfold merge_hyperlinks. destruct hyperlinks as [|l rest].
  - exists []. rewrite app_nil_r. repeat split; simpl; try tauto; constructor.
  - apply fold_merge_spec.
Qed.

Lemma merge_hyperlinks_spec_witness :
  exists added,
    merge_hyperlinks [linkedin_profile] [("LinkedIn", "https://linkedin.com/in/jdoe")]
      = ([linkedin_profile] ++ added)%list
    /\ urls added = [].
Proof.
  destruct (merge_hyperlinks_spec [linkedin_profile] [("LinkedIn", "https://linkedin.com/in/jdoe")])
    as [added [Hm [_ [Hi _]]]].
  exists added. split; [exact Hm|].
  destruct (urls added) as [|u l] eqn:E; [reflexivity|].
  exfalso. assert (Hu : In u (u :: l)) by (left; reflexivity).
  apply Hi in Hu as [_ [Hn [Hs|[]]]]. simpl in Hs. subst u. apply Hn. left. reflexivity.
Defined.

(** ** Further properties of the code *)

Lemma lstrip_idem (s : string) : lstrip (lstrip s) = lstrip s.
Proof.
  induction s as [|c s' IH]; simpl; [reflexivity|].
  destruct (is_space c) eqn:E; [exact IH|simpl; rewrite E; reflexivity].
Qed.

Lemma rstrip_idem (s : string) : rstrip (rstrip s) = rstrip s.
Proof.
  induction s as [|c s' IH]; simpl; [reflexivity|].
  destruct (String.eqb (rstrip s') "" && is_space c) eqn:E; [reflexivity|].
  simpl. rewrite IH, E. reflexivity.
Qed.

Lemma rstrip_lstrip (s : string) : rstrip (lstrip s) = lstrip (rstrip s).
Proof.
  induction s as [|c s' IH]; simpl; [reflexivity|].
  destruct (is_space c) eqn:E.
  - rewrite IH. destruct (String.eqb (rstrip s') "") eqn:E2; simpl.
    + apply String.eqb_eq in E2. rewrite E2. reflexivity.
    + rewrite E. reflexivity.
  - simpl. rewrite E, andb_false_r. simpl. rewrite E. reflexivity.
Qed.

Lemma strip_idem (s : string) : strip (strip s) = strip s.
Proof.
  unfold strip. rewrite rstrip_lstrip, rstrip_idem, lstrip_idem. reflexivity.
Qed.

Lemma dict_set_sections (k v a b c d e f g : string) :
  In k (map fst SECTION_KEYWORDS) ->
  exists a' b' c' d' e' f' g',
    dict_set k v [("contact", a); ("summary", b); ("education", c); ("experience", d);
                  ("projects", e); ("skills", f); ("achievements", g); ("other", "")]
    = [("contact", a'); ("summary", b'); ("education", c'); ("experience", d');
       ("projects", e'); ("skills", f'); ("achievements", g'); ("other", "")]
    /\ Forall (fun x => x = v \/ In x [a; b; c; d; e; f; g]) [a'; b'; c'; d'; e'; f'; g'].
Proof.
  cbn [map fst SECTION_KEYWORDS In]. intros H.
  repeat (destruct H as [<-|H];
    [do 7 eexists; split; [cbv [dict_set dict_set_aux]; cbn; reflexivity|];
     repeat apply Forall_cons; try apply Forall_nil; cbn [In]; tauto|]).
  destruct H.
Qed.

Lemma fold_split_step_sections (lines : list string) (st : split_state) :
  (exists a b c d e f g,
     st_sections st = [("contact", a); ("summary", b); ("education", c); ("experience", d);
                       ("projects", e); ("skills", f); ("achievements", g); ("other", "")]
     /\ Forall (fun x => strip x = x) [a; b; c; d; e; f; g]) ->
  In (st_current_section st) (map fst SECTION_KEYWORDS) ->
  let st' := fold_left split_step lines st in
  (exists a b c d e f g,
     st_sections st' = [("contact", a); ("summary", b); ("education", c); ("experience", d);
                        ("projects", e); ("skills", f); ("achievements", g); ("other", "")]
     /\ Forall (fun x => strip x = x) [a; b; c; d; e; f; g])
  /\ In (st_current_section st') (map fst SECTION_KEYWORDS).
Proof.
  revert st. induction lines as [|line rest IH]; intros st Hs Hc; cbn [fold_left]; [tauto|].
  apply IH; unfold split_step.
  - destruct (find _ _) as [dsec|] eqn:Ef; cbn [st_sections]; [|exact Hs].
    destruct Hs as (a & b & c & d & e & f & g & -> & Hf).
    destruct (dict_set_sections (st_current_section st) (strip (join (String "010"%char "") (st_current_content st))) a b c d e f g Hc) as (a' & b' & c' & d' & e' & f' & g' & -> & Hf').
    do 7 eexists. split; [reflexivity|].
    rewrite Forall_forall in Hf, Hf' |- *. intros x Hx.
    destruct (Hf' x Hx) as [->|Hx']; [apply strip_idem|apply Hf, Hx'].
  - destruct (find _ _) as [dsec|] eqn:Ef; cbn [st_current_section]; [|exact Hc].
    apply find_some in Ef. tauto.
Qed.

Lemma split_resume_by_sections_shape (text : string) :
  exists a b c d e f g,
    split_resume_by_sections text =
      [("contact", a); ("summary", b); ("education", c); ("experience", d);
       ("projects", e); ("skills", f); ("achievements", g); ("other", "")]
    /\ Forall (fun x => strip x = x) [a; b; c; d; e; f; g].
Proof.
  unfold split_resume_by_sections. cbv zeta.
  set (st0 := mk_split_state (dict_set "other" "" (map (fun kv => (fst kv, "")) SECTION_KEYWORDS))
                 "contact" []).
  destruct (fold_split_step_sections (split_on "010"%char text) st0) as [Hs Hc].
  - exists "", "", "", "", "", "", "". split; [reflexivity|]. repeat constructor.
  - cbn. tauto.
  - set (st := fold_left split_step (split_on "010"%char text) st0) in *.
    destruct Hs as (a & b & c & d & e & f & g & Heq & Hf).
    rewrite Heq.
    destruct (dict_set_sections (st_current_section st)
                (strip (join (String "010"%char "") (st_current_content st))) a b c d e f g Hc)
      as (a' & b' & c' & d' & e' & f' & g' & -> & Hf').
    do 7 eexists. split; [reflexivity|].
    rewrite Forall_forall in Hf, Hf' |- *. intros x Hx.
    destruct (Hf' x Hx) as [->|Hx']; [apply strip_idem|apply Hf, Hx'].
Qed.
Lemma split_on_not_nil (sep : ascii) (s : string) : split_on sep s <> [].
Proof.
  destruct s as [|c s']; simpl; [discriminate|].
  destruct (Ascii.eqb c sep); [discriminate|].
  destruct (split_on sep s'); discriminate.
Qed.

Lemma join_split_on (sep : ascii) (s : string) : join (String sep "") (split_on sep s) = s.
Proof.
  unfold join. induction s as [|c s' IH]; simpl; [reflexivity|].
  destruct (Ascii.eqb c sep) eqn:E.
  - apply Ascii.eqb_eq in E. subst c.
    destruct (split_on sep s') as [|h t] eqn:Hs; [exfalso; exact (split_on_not_nil sep s' Hs)|].
    simpl. rewrite <- IH. reflexivity.
  - destruct (split_on sep s') as [|h t] eqn:Hs; [exfalso; exact (split_on_not_nil sep s' Hs)|].
    rewrite <- IH. destruct t; reflexivity.
Qed.

Lemma fold_split_step_no_header (lines : list string) (st : split_state) :
  (forall line, In line lines -> forall sec, In sec (map fst SECTION_KEYWORDS) ->
                detect_section_start line sec = false) ->
  fold_left split_step lines st
  = mk_split_state (st_sections st) (st_current_section st) (st_current_content st ++ lines).
Proof.
  revert st. induction lines as [|line rest IH]; intros st H; cbn [fold_left].
  - rewrite app_nil_r. destruct st; reflexivity.
  - rewrite IH; [|intros l Hl; apply H; right; exact Hl].
    unfold split_step.
    destruct (find _ _) as [d|] eqn:Ef.
    + apply find_some in Ef as [Hin Hd]. rewrite (H line (or_introl eq_refl) d Hin) in Hd.
      discriminate.
    + cbn. rewrite <- app_assoc. reflexivity.
Qed.
(** X1: [split_resume_by_sections] returns the eight section keys in the order of its dictionary literal; the ['other'] entry is always empty and every value is already stripped. *)
Theorem split_resume_by_sections_keys (text : string) :
  let sections := split_resume_by_sections text in
  map fst sections = ["contact"; "summary"; "education"; "experience"; "projects"; "skills";
                      "achievements"; "other"]
  /\ dict_get "other" sections "" = ""
  /\ Forall (fun kv => strip (snd kv) = snd kv) sections.
Proof.
  cbv zeta.
  destruct (split_resume_by_sections_shape text) as (a & b & c & d & e & f & g & -> & Hf).
  split; [reflexivity|]. split; [reflexivity|].
  rewrite Forall_forall in Hf |- *. intros kv Hkv. simpl in Hkv.
  repeat (destruct Hkv as [<-|Hkv]; [simpl; try reflexivity; apply Hf; simpl; tauto|]).
  destruct Hkv.
Qed.

(** X2: [classify_resume_sections] is the pair ('full_text', text) followed by the sections of [split_resume_by_sections] without ['other'], in the same order. *)
Theorem classify_resume_sections_spec (text : string) :
  classify_resume_sections text = ("full_text", text) :: removelast (split_resume_by_sections text).
Proof.
  unfold classify_resume_sections.
  destruct (split_resume_by_sections_shape text) as (a & b & c & d & e & f & g & -> & Hf).
  rewrite Forall_forall in Hf. with_strategy opaque [strip] cbn.
  rewrite !Hf by (simpl; tauto). reflexivity.
Qed.

(** X3: when no line of the text starts a section, the whole stripped text lands in ['contact'] and every other section is empty. *)
Theorem split_resume_by_sections_no_header (text : string) :
  (forall line, In line (split_on "010"%char text) ->
     forall sec, In sec (map fst SECTION_KEYWORDS) -> detect_section_start line sec = false) ->
  split_resume_by_sections text =
    [("contact", strip text); ("summary", ""); ("education", ""); ("experience", "");
     ("projects", ""); ("skills", ""); ("achievements", ""); ("other", "")].
Proof.
  intros H. unfold split_resume_by_sections. cbv zeta.
  rewrite (fold_split_step_no_header _ _ H). cbn [st_sections st_current_section st_current_content app].
  rewrite join_split_on. reflexivity.
Qed.

Lemma split_resume_by_sections_no_header_witness :
  (forall line, In line (split_on "010"%char "John Smith") ->
     forall sec, In sec (map fst SECTION_KEYWORDS) -> detect_section_start line sec = false)
  /\ split_resume_by_sections "John Smith" =
    [("contact", strip "John Smith"); ("summary", ""); ("education", ""); ("experience", "");
     ("projects", ""); ("skills", ""); ("achievements", ""); ("other", "")].
Proof.
  assert (H : forall line, In line (split_on "010"%char "John Smith") ->
     forall sec, In sec (map fst SECTION_KEYWORDS) -> detect_section_start line sec = false).
  { intros line Hl sec Hs. simpl in Hl. destruct Hl as [<-|[]].
    simpl in Hs. repeat (destruct Hs as [<-|Hs]; [vm_compute; reflexivity|]). destruct Hs. }
  split; [exact H|]. apply split_resume_by_sections_no_header. exact H.
Defined.
Lemma length_take (n : nat) (s : string) : String.length (take n s) = Nat.min n (String.length s).
Proof.
  unfold take. revert n. induction s as [|c s' IH]; intros [|n]; simpl; try reflexivity.
  rewrite IH. reflexivity.
Qed.

Lemma achievement_of_line_exc (raw : string) (e : exn) :
  achievement_of_line raw = Exc e <-> strip raw = "" /\ e = IndexError.
Proof.
  unfold achievement_of_line. destruct (strip raw) as [|c t] eqn:E.
  - simpl. split; [intros H; inversion H; tauto|intros [_ ->]; reflexivity].
  - split; [|intros [H _]; discriminate].
    intros H. exfalso. revert H.
    destruct (startswith "-" (String c t)); cbn [bind];
      [|destruct (is_digit c && contains "." (take 3 (String c t)))]; cbv zeta;
      repeat match goal with |- context [if ?b then _ else _] => destruct b end; discriminate.
Qed.

Lemma achievement_of_line_some (raw x : string) :
  achievement_of_line raw = Ok (Some x) -> 10 < String.length x <= 200.
Proof.
  unfold achievement_of_line.
  set (line := strip raw).
  set (a := strip (lstrip_chars "-0123456789. " line)).
  assert (K : forall b : bool, bind (Ok b) (fun cond => if cond then
     if negb (String.eqb a "") && (10 <? String.length a) then Ok (Some (take 200 a)) else Ok None
     else Ok None) = Ok (Some x) -> 10 < String.length x <= 200).
  { intros [|]; cbn [bind]; [|discriminate].
    destruct (negb (String.eqb a "") && (10 <? String.length a)) eqn:E; [|discriminate].
    intros H. inversion H; subst x. apply andb_true_iff in E as [_ E].
    apply Nat.ltb_lt in E. rewrite length_take. lia. }
  destruct (startswith "-" line); [apply K|].
  destruct line as [|c t]; [discriminate|apply K].
Qed.

Lemma achievements_loop_exc (lines : list string) :
  ((exists e, achievements_loop lines = Exc e) <-> exists l, In l lines /\ strip l = "")
  /\ (forall e, achievements_loop lines = Exc e -> e = IndexError).
Proof.
  induction lines as [|l rest [IH1 IH2]]; simpl.
  - split; [split; [intros [e H]; discriminate|intros [x [[] _]]]|intros e H; discriminate].
  - destruct (achievement_of_line l) as [a|e0] eqn:Ea; cbn [bind].
    + assert (Hl : strip l <> "").
      { intros Hs. destruct (achievement_of_line_exc l IndexError) as [_ H].
        rewrite H in Ea; [discriminate|tauto]. }
      destruct (achievements_loop rest) as [acc|e1] eqn:Er; cbn [bind].
      * split; [|intros e H; discriminate]. split; [intros [e H]; discriminate|].
        intros [x [[<-|Hx] Hs]]; [tauto|].
        destruct IH1 as [_ IH1]. destruct IH1 as [e He]; [exists x; tauto|discriminate].
      * split; [|intros e H; inversion H; subst; apply IH2; reflexivity].
        split; [intros _|intros _; exists e1; reflexivity].
        destruct IH1 as [IH1 _]. destruct IH1 as [x Hx]; [exists e1; reflexivity|].
        exists x. tauto.
    + apply achievement_of_line_exc in Ea as [Hs ->].
      split; [split; [intros _; exists l; tauto|intros _; exists IndexError; reflexivity]|].
      intros e H. inversion H. reflexivity.
Qed.

Lemma achievements_loop_ok (lines acc : list string) :
  achievements_loop lines = Ok acc -> forall x, In x acc -> 10 < String.length x <= 200.
Proof.
  revert acc. induction lines as [|l rest IH]; intros acc H; simpl in H.
  - inversion H; subst. intros x [].
  - destruct (achievement_of_line l) as [a|e] eqn:Ea; cbn [bind] in H; [|discriminate].
    destruct (achievements_loop rest) as [acc'|e] eqn:Er; cbn [bind] in H; [|discriminate].
    inversion H; subst acc. intros x Hx.
    destruct a as [y|]; [destruct Hx as [<-|Hx]|].
    + apply achievement_of_line_some with l. exact Ea.
    + apply (IH acc' eq_refl x Hx).
    + apply (IH acc' eq_refl x Hx).
Qed.

Lemma firstn_incl {A : Type} (n : nat) (l : list A) (x : A) : In x (firstn n l) -> In x l.
Proof.
  intros H. rewrite <- (firstn_skipn n l). apply in_or_app. left. exact H.
Qed.

Lemma length_firstn_le {A : Type} (n : nat) (l : list A) : List.length (firstn n l) <= n.
Proof. rewrite length_firstn. lia. Qed.

(** X4: [extract_achievements_from_text] raises exactly when some line strips to the empty string (the [line.strip()[0]] index), the only exception it raises is IndexError, and otherwise it returns at most ten achievements, each longer than 10 and at most 200 characters. *)
Theorem extract_achievements_from_text_spec (text : string) :
  ((exists e, extract_achievements_from_text text = Exc e)
     <-> exists line, In line (split_on "010"%char text) /\ strip line = "")
  /\ (forall e, extract_achievements_from_text text = Exc e -> e = IndexError)
  /\ (forall achievements, extract_achievements_from_text text = Ok achievements ->
        List.length achievements <= 10
        /\ forall a, In a achievements -> 10 < String.length a <= 200).
Proof.
  unfold extract_achievements_from_text.
  destruct (achievements_loop_exc (split_on "010"%char text)) as [H1 H2].
  destruct (achievements_loop (split_on "010"%char text)) as [acc|e] eqn:E; unfold bind.
  - split; [rewrite <- H1; split; intros [e He]; discriminate|].
    split; [intros e He; discriminate|].
    intros a Ha. injection Ha as <-. split; [exact (length_firstn_le 10 acc)|].
    intros x Hx. apply (achievements_loop_ok _ _ E x). apply firstn_incl with 10. exact Hx.
  - split; [rewrite <- H1; split; intros [e' He']; exists e; reflexivity|].
    split; [intros e' He'; inversion He'; subst; apply H2; reflexivity|].
    intros a Ha. discriminate.
Qed.
Lemma Sorted_firstn {A : Type} (R : A -> A -> Prop) (n : nat) (l : list A) :
  Sorted R l -> Sorted R (firstn n l).
Proof.
  revert n. induction l as [|a l IH]; intros [|n] H; simpl; try apply Sorted_nil.
  apply Sorted_inv in H as [Hl Hh]. apply Sorted_cons; [exact (IH n Hl)|].
  destruct l as [|b l']; destruct n; simpl; constructor.
  apply HdRel_inv in Hh. exact Hh.
Qed.

Lemma NoDup_firstn' {A : Type} (n : nat) (l : list A) : NoDup l -> NoDup (firstn n l).
Proof.
  intros H. rewrite <- (firstn_skipn n l) in H. apply NoDup_app_remove_r in H. exact H.
Qed.

Lemma project_of_line_some (raw : string) (p : Project.t) :
  project_of_line raw = Some p ->
  3 < String.length (Project.name p) <= 150
  /\ List.length (Project.technologies p) <= 10
  /\ Sorted str_le (Project.technologies p)
  /\ NoDup (Project.technologies p)
  /\ (forall t, In t (Project.technologies p) -> In t TECH_WORDS).
Proof.
  unfold project_of_line. cbv zeta.
  match goal with |- (if ?c then _ else _) = _ -> _ => destruct c; [|discriminate] end.
  match goal with
  |- (if ?c then Some (Project.mk (take 150 ?pn) (firstn 10 (sort (dedup ?ts)))) else _) = _ -> _ =>
      destruct c eqn:E; [|discriminate]; set (techs := ts) in *;
      assert (Ht : forall t, In t techs -> In t TECH_WORDS)
        by (intros t Ht; apply filter_In in Ht; tauto); clearbody techs
  end.
  intros H. apply (f_equal (fun o => match o with Some q => q | None => p end)) in H.
  cbv beta iota in H. subst p. cbv beta iota delta [Project.name Project.technologies].
  apply andb_true_iff in E as [_ E]. apply Nat.ltb_lt in E.
  split; [rewrite length_take; lia|].
  split; [exact (length_firstn_le 10 (sort (dedup techs)))|].
  split; [exact (Sorted_firstn str_le 10 _ (sort_Sorted (dedup techs)))|].
  split; [exact (NoDup_firstn' 10 _ (NoDup_sort _ (NoDup_dedup techs)))|].
  intros t Ht'. apply (firstn_incl 10 (sort (dedup techs))) in Ht'. rewrite In_sort, In_dedup in Ht'. apply Ht, Ht'.
Qed.

(** X5: [extract_projects_from_text] returns at most ten projects; every project name has more than 3 and at most 150 characters, and its technologies are at most ten sorted, duplicate-free words of the technology vocabulary. *)
Theorem extract_projects_from_text_spec (text : string) :
  let projects := extract_projects_from_text text in
  List.length projects <= 10
  /\ forall p, In p projects ->
       3 < String.length (Project.name p) <= 150
       /\ List.length (Project.technologies p) <= 10
       /\ Sorted str_le (Project.technologies p)
       /\ NoDup (Project.technologies p)
       /\ (forall t, In t (Project.technologies p) -> In t TECH_WORDS).
Proof.
  unfold extract_projects_from_text.
  set (ps := flat_map _ _). cbv zeta.
  split; [exact (length_firstn_le 10 ps)|].
  intros p Hp. apply (firstn_incl 10 ps) in Hp. unfold ps in Hp.
  apply in_flat_map in Hp as [l [_ Hl]].
  destruct (project_of_line l) as [q|] eqn:E; [|destruct Hl].
  destruct Hl as [<-|[]]. apply project_of_line_some with l. exact E.
Qed.
Lemma extract_achievements_ok (text : string) (achievements : list string) :
  extract_achievements_from_text text = Ok achievements ->
  List.length achievements <= 10 /\ forall a, In a achievements -> 10 < String.length a <= 200.
Proof.
  unfold extract_achievements_from_text.
  destruct (achievements_loop (split_on "010"%char text)) as [acc|e] eqn:E; unfold bind;
    [|discriminate].
  intros Ha. injection Ha as <-. split; [exact (length_firstn_le 10 acc)|].
  intros x Hx. apply (achievements_loop_ok _ _ E x). apply firstn_incl with 10. exact Hx.
Qed.

Lemma build_resume_ok (extract_email extract_phone : string -> string) (text : string) (r : Resume.t) :
  build_resume extract_email extract_phone text = Ok r ->
  Resume.name r <> ""
  /\ Resume.experience_summary r <> Some ""
  /\ Resume.achievements r <> Some []
  /\ (forall l, Resume.achievements r = Some l ->
        List.length l <= 10 /\ forall a, In a l -> 10 < String.length a <= 200)
  /\ List.length (Resume.projects r) <= 10
  /\ Resume.online_profiles r = extract_profiles_from_text text
  /\ Resume.skills r = extract_skills_from_text text.
Proof.
  unfold build_resume. cbv zeta.
  set (sections := split_resume_by_sections text).
  destruct (extract_achievements_from_text (dict_get "achievements" sections text)) as [acc|e] eqn:Ea;
    unfold bind; [|discriminate].
  intros H. apply (f_equal (fun o => match o with Ok q => q | Exc _ => r end)) in H.
  cbv beta iota in H. subst r.
  apply extract_achievements_ok in Ea as [Hl Hb].
  cbv beta iota delta [Resume.name Resume.experience_summary Resume.achievements Resume.projects
                       Resume.online_profiles Resume.skills].
  split.
  { destruct (String.eqb (extract_name_robust text) "") eqn:E; [discriminate|].
    intros He. rewrite He in E. discriminate. }
  split.
  { destruct (String.eqb (experience_summary_of text sections) "") eqn:E; [discriminate|].
    intros He. injection He as He. rewrite He in E. discriminate. }
  split; [destruct acc; discriminate|].
  split; [intros l Hs; destruct acc; [discriminate|]; injection Hs as <-; tauto|].
  split; [apply length_firstn_le|].
  split; reflexivity.
Qed.

Lemma extract_resume_info_ok (extract_email extract_phone : string -> string)
  (save_extracted_data : string -> Resume.t -> result unit) (text : string) (r : Resume.t) :
  extract_resume_info extract_email extract_phone save_extracted_data text = Ok r ->
  build_resume extract_email extract_phone text = Ok r.
Proof.
  unfold extract_resume_info.
  destruct (build_resume extract_email extract_phone text) as [r0|e]; unfold bind; [|discriminate].
  destruct (save_extracted_data text r0); [|discriminate]. exact id.
Qed.

(** X6: a successful [extract_resume_info] returns a record with a non-empty name, an experience summary that is absent or non-empty, achievements that are absent or a non-empty list of at most ten items of 11 to 200 characters, at most ten projects, and the profiles and skills extracted from the same text. *)
Theorem extract_resume_info_record (extract_email extract_phone : string -> string)
  (save_extracted_data : string -> Resume.t -> result unit) (text : string) (r : Resume.t) :
  extract_resume_info extract_email extract_phone save_extracted_data text = Ok r ->
  Resume.name r <> ""
  /\ Resume.experience_summary r <> Some ""
  /\ Resume.achievements r <> Some []
  /\ (forall l, Resume.achievements r = Some l ->
        List.length l <= 10 /\ forall a, In a l -> 10 < String.length a <= 200)
  /\ List.length (Resume.projects r) <= 10
  /\ Resume.online_profiles r = extract_profiles_from_text text
  /\ Resume.skills r = extract_skills_from_text text.
Proof.
  intros H. apply extract_resume_info_ok in H. apply build_resume_ok with extract_email extract_phone.
  exact H.
Qed.

Lemma extract_resume_info_record_witness :
  exists r,
    extract_resume_info (fun _ => "") (fun _ => "") (fun _ _ => Ok tt) resume_with_achievements = Ok r
    /\ Resume.name r <> "".
Proof.
  destruct (extract_resume_info (fun _ => "") (fun _ => "") (fun _ _ => Ok tt)
              resume_with_achievements) as [r|e] eqn:E; [|vm_compute in E; discriminate].
  exists r. split; [reflexivity|].
  exact (proj1 (extract_resume_info_record _ _ _ _ _ E)).
Defined.

(** Merging hyperlinks whose URLs are all empty or already present adds nothing. *)
Lemma merge_hyperlinks_no_new (ps : list OnlineProfile.t) (links : list (string * string)) :
  (forall u, In u (map snd links) -> u = "" \/ In u (urls ps)) ->
  merge_hyperlinks ps links = ps.
Proof.
  intros H. unfold merge_hyperlinks. destruct links as [|l rest]; [reflexivity|].
  destruct (fold_merge_spec (l :: rest) ps) as [added [-> [_ [Hi _]]]].
  destruct added as [|p added]; [apply app_nil_r|].
  exfalso. destruct (proj1 (Hi (OnlineProfile.url p)) (or_introl eq_refl)) as [Hne [Hn Hin]]. destruct (H _ Hin); tauto.
Qed.

(** X7: merging the same hyperlinks a second time changes nothing. *)
Theorem merge_hyperlinks_idempotent (ps : list OnlineProfile.t) (links : list (string * string)) :
  merge_hyperlinks (merge_hyperlinks ps links) links = merge_hyperlinks ps links.
Proof.
  apply merge_hyperlinks_no_new. intros u Hu.
  destruct (String.eqb u "") eqn:E; [left; apply String.eqb_eq, E|right].
  apply String.eqb_neq in E.
  unfold merge_hyperlinks. destruct links as [|l rest]; [destruct Hu|].
  destruct (fold_merge_spec (l :: rest) ps) as [added [-> [_ [Hi _]]]].
  unfold urls. rewrite map_app, in_app_iff. fold (urls ps) (urls added).
  destruct (in_dec string_dec u (urls ps)) as [Hp|Hp]; [left; exact Hp|right].
  apply Hi. tauto.
Qed.

(** X8: for a plain-text upload, the hyperlinks returned by [read_plain_text] are already among the extracted profiles, so the merge in [upload_resume] leaves the record unchanged. *)
Theorem upload_plain_text_merge_unchanged (extract_email extract_phone : string -> string)
  (save_extracted_data : string -> Resume.t -> result unit) (content : string) (r : Resume.t) :
  let (text, hyperlinks) := read_plain_text content in
  extract_resume_info extract_email extract_phone save_extracted_data text = Ok r ->
  merge_into_resume r hyperlinks = r.
Proof.
  unfold read_plain_text. cbv zeta. rewrite app_nil_l. intros H.
  apply extract_resume_info_ok, build_resume_ok in H.
  destruct H as (_ & _ & _ & _ & _ & Hp & _).
  unfold merge_into_resume. rewrite merge_hyperlinks_no_new.
  - destruct r; reflexivity.
  - intros u Hu. right. rewrite Hp. unfold extract_urls_from_text, extract_profiles_from_text, urls in *.
    rewrite map_map in Hu |- *. cbn in Hu |- *. rewrite map_id in Hu |- *. exact Hu.
Qed.

Lemma upload_plain_text_merge_unchanged_witness :
  exists r,
    extract_resume_info (fun _ => "") (fun _ => "") (fun _ _ => Ok tt) resume_with_link = Ok r
    /\ snd (read_plain_text resume_with_link) = [("Profile", "https://github.com/jdoe")]
    /\ merge_into_resume r (snd (read_plain_text resume_with_link)) = r.
Proof.
  destruct (extract_resume_info (fun _ => "") (fun _ => "") (fun _ _ => Ok tt)
              resume_with_link) as [r|e] eqn:E; [|vm_compute in E; discriminate].
  exists r. split; [reflexivity|]. split; [vm_compute; reflexivity|].
  exact (upload_plain_text_merge_unchanged (fun _ => "") (fun _ => "") (fun _ _ => Ok tt)
           resume_with_link r E).
Defined.
Lemma lower_char_idem (c : ascii) : lower_char (lower_char c) = lower_char c.
Proof. destruct c as [[] [] [] [] [] [] [] []]; reflexivity. Qed.

Lemma lower_idem (s : string) : lower (lower s) = lower s.
Proof. induction s as [|c s IH]; simpl; [reflexivity|]. rewrite lower_char_idem, IH. reflexivity. Qed.

Lemma map_lower_id (l : list string) : (forall s, In s l -> lower s = s) -> map lower l = l.
Proof.
  intros H. rewrite <- (map_id l) at 2. apply map_ext_in. exact H.
Qed.

Lemma TECH_WORDS_lower (s : string) : In s TECH_WORDS -> lower s = s.
Proof.
  assert (H : forallb (fun t => String.eqb (lower t) t) TECH_WORDS = true) by (vm_compute; reflexivity).
  rewrite forallb_forall in H. intros Hs. apply String.eqb_eq, H, Hs.
Qed.

Lemma DEFAULT_SKILL_VOCAB_lower (s : string) : In s SkillMatcher.DEFAULT_SKILL_VOCAB -> lower s = s.
Proof.
  assert (H : forallb (fun t => String.eqb (lower t) t) SkillMatcher.DEFAULT_SKILL_VOCAB = true)
    by (vm_compute; reflexivity).
  rewrite forallb_forall in H. intros Hs. apply String.eqb_eq, H, Hs.
Qed.

Lemma NoDup_DEFAULT_SKILL_VOCAB : NoDup SkillMatcher.DEFAULT_SKILL_VOCAB.
Proof.
  assert (H : dedup SkillMatcher.DEFAULT_SKILL_VOCAB = SkillMatcher.DEFAULT_SKILL_VOCAB)
    by (vm_compute; reflexivity).
  rewrite <- H. apply NoDup_dedup.
Qed.

(** X9: the skills of [extract_skills_from_text] are sorted, duplicate-free, lowercase words of the technology vocabulary, and the result does not depend on the case of the text. *)
Theorem extract_skills_from_text_spec (text : string) :
  let skills := extract_skills_from_text text in
  Sorted str_le skills /\ NoDup skills
  /\ (forall s, In s skills -> In s TECH_WORDS /\ lower s = s)
  /\ extract_skills_from_text (lower text) = skills.
Proof.
  cbv zeta. unfold extract_skills_from_text at 2 3 4. cbv zeta.
  split; [apply sort_Sorted|].
  split; [apply NoDup_sort, NoDup_dedup|].
  split.
  - intros s Hs. apply In_sort_dedup_filter in Hs as [Hs _].
    split; [exact Hs|apply TECH_WORDS_lower, Hs].
  - unfold extract_skills_from_text. rewrite lower_idem. reflexivity.
Qed.

Lemma normalize_text_lower (text : string) : normalize_text (lower text) = normalize_text text.
Proof. unfold normalize_text. rewrite lower_idem. reflexivity. Qed.

Lemma SkillMatcher_extract_incl (text s : string) :
  In s (SkillMatcher.extract_skills_from_text text) -> In s SkillMatcher.DEFAULT_SKILL_VOCAB.
Proof.
  unfold SkillMatcher.extract_skills_from_text. cbv zeta.
  rewrite In_sort, filter_In. tauto.
Qed.

(** X10: the skills of [SkillMatcher.extract_skills_from_text] are sorted, duplicate-free, lowercase words of its default vocabulary, and the result does not depend on the case of the text. *)
Theorem SkillMatcher_extract_skills_spec (text : string) :
  let skills := SkillMatcher.extract_skills_from_text text in
  Sorted str_le skills /\ NoDup skills
  /\ (forall s, In s skills -> In s SkillMatcher.DEFAULT_SKILL_VOCAB /\ lower s = s)
  /\ SkillMatcher.extract_skills_from_text (lower text) = skills.
Proof.
  cbv zeta.
  split; [apply sort_Sorted|].
  split; [apply NoDup_sort, NoDup_filter, NoDup_DEFAULT_SKILL_VOCAB|].
  split.
  - intros s Hs. apply SkillMatcher_extract_incl in Hs.
    split; [exact Hs|apply DEFAULT_SKILL_VOCAB_lower, Hs].
  - unfold SkillMatcher.extract_skills_from_text. rewrite normalize_text_lower. reflexivity.
Qed.
Lemma filter_partition_length {A : Type} (f : A -> bool) (l : list A) :
  List.length (filter f l) + List.length (filter (fun x => negb (f x)) l) = List.length l.
Proof.
  induction l as [|x t IH]; simpl; [reflexivity|].
  destruct (f x); simpl; lia.
Qed.

Lemma intersection_length_sym (a b : list string) :
  NoDup a -> NoDup b ->
  List.length (filter (fun s => mem s b) a) = List.length (filter (fun s => mem s a) b).
Proof.
  intros Ha Hb.
  apply Nat.le_antisymm; apply NoDup_incl_length; try (apply NoDup_filter; assumption);
    intros x Hx; rewrite filter_In, mem_In in Hx |- *; tauto.
Qed.

Lemma dedup_NoDup (l : list string) : NoDup l -> dedup l = l.
Proof.
  induction l as [|x t IH]; intros H; simpl; [reflexivity|].
  apply NoDup_cons_iff in H as [Hx Ht].
  apply mem_false_not_In in Hx. rewrite Hx, IH by exact Ht. reflexivity.
Qed.

Lemma length_sort (l : list string) : List.length (sort l) = List.length l.
Proof. apply Permutation_length, sort_perm. Qed.

Lemma filter_mem_nil (l : list string) : filter (fun s => mem s []) l = [].
Proof. induction l as [|x t IH]; [reflexivity|exact IH]. Qed.

(** X11: in [compute_compatibility] the matched and missing skills together count the distinct lowercase job skills; the score is 10 when nothing is missing from a non-empty job list, and 0 when nothing matches. *)
Theorem compute_compatibility_counts (resume_skills jd_skills : list string) :
  match compute_compatibility resume_skills jd_skills with
  | (score, matched, missing) =>
      List.length matched + List.length missing = List.length (dedup (map lower jd_skills))
      /\ (jd_skills <> [] -> missing = [] -> score == 10)%Q
      /\ (matched = [] -> score == 0)%Q
  end.
Proof.
  unfold compute_compatibility.
  set (rs := dedup (map lower resume_skills)).
  set (js := dedup (map lower jd_skills)). cbv zeta.
  assert (Hc : List.length (sort (filter (fun s => mem s js) rs))
               + List.length (sort (filter (fun s => negb (mem s rs)) js)) = List.length js).
  { rewrite !length_sort, intersection_length_sym by apply NoDup_dedup.
    apply filter_partition_length. }
  split; [exact Hc|]. split.
  - intros HJ Hm. rewrite Hm in Hc. simpl in Hc. rewrite Nat.add_0_r in Hc. rewrite Hc.
    assert (Hjs : 0 < List.length js).
    { destruct jd_skills as [|x t]; [congruence|].
      destruct js as [|y u] eqn:E; [|simpl; lia].
      exfalso. assert (Hx : In (lower x) js) by (unfold js; apply In_dedup; left; reflexivity).
      rewrite E in Hx. destruct Hx. }
    rewrite Nat.max_r by lia. apply float_score_full. exact Hjs.
  - intros Hm. rewrite Hm. apply float_score_zero.
Qed.

Lemma calculate_compatibility_score_nonempty (resume_skills job_description_skills : list string) :
  job_description_skills <> [] ->
  calculate_compatibility_score resume_skills job_description_skills
  = py_round2 (fmul 10 (fdiv (inject_Z (Z.of_nat (List.length (set_intersection resume_skills job_description_skills))))
                             (inject_Z (Z.of_nat (List.length job_description_skills))))).
Proof.
  destruct job_description_skills as [|j js]; [congruence|]. intros _.
  unfold calculate_compatibility_score. cbv zeta. rewrite fmul_comm. reflexivity.
Qed.

(** X12: for duplicate-free skill lists, [calculate_compatibility_score] is 0 for an empty job list, lies between 0 and 10, and agrees with the score of [compute_compatibility] on lowercase inputs. *)
Theorem calculate_compatibility_score_spec (resume_skills job_description_skills : list string) :
  NoDup resume_skills -> NoDup job_description_skills ->
  let score := calculate_compatibility_score resume_skills job_description_skills in
  (job_description_skills = [] -> score = 0%Q)
  /\ (0 <= score <= 10)%Q
  /\ ((forall s, In s resume_skills -> lower s = s) ->
      (forall s, In s job_description_skills -> lower s = s) ->
      match compute_compatibility resume_skills job_description_skills with
      | (score', _, _) => score == score'
      end)%Q.
Proof.
  intros HR HJ. cbv zeta.
  assert (Hk : List.length (set_intersection resume_skills job_description_skills)
               <= List.length job_description_skills).
  { apply NoDup_incl_length; [apply NoDup_filter, HR|].
    intros x Hx. unfold set_intersection in Hx. rewrite filter_In, mem_In in Hx. tauto. }
  destruct job_description_skills as [|j js] eqn:EJ.
  - split; [reflexivity|]. split; [split; discriminate|].
    intros _ _. unfold compute_compatibility. cbn [map dedup].
    rewrite filter_mem_nil. vm_compute. reflexivity.
  - rewrite <- EJ in *. set (J := job_description_skills) in *.
    assert (Hd : 0 < List.length J) by (rewrite EJ; simpl; lia).
    assert (HQ := calculate_compatibility_score_nonempty resume_skills J ltac:(rewrite EJ; discriminate)).
    split; [intros H; rewrite EJ in H; discriminate|].
    split.
    + rewrite HQ. exact (proj1 (float_score_nat _ _ Hd Hk)).
    + intros HRl HJl. unfold compute_compatibility.
      rewrite (map_lower_id _ HRl), (map_lower_id _ HJl), !(dedup_NoDup _ HR), (dedup_NoDup _ HJ).
      rewrite HQ. rewrite length_sort, Nat.max_r by lia.
      unfold set_intersection. reflexivity.
Qed.

Lemma calculate_compatibility_score_spec_witness :
  NoDup ["python"; "sql"; "aws"] /\ NoDup ["python"; "docker"; "sql"]
  /\ (0 <= calculate_compatibility_score ["python"; "sql"; "aws"] ["python"; "docker"; "sql"] <= 10)%Q.
Proof.
  assert (HR : NoDup ["python"; "sql"; "aws"])
    by (repeat constructor; simpl; intuition discriminate).
  assert (HJ : NoDup ["python"; "docker"; "sql"])
    by (repeat constructor; simpl; intuition discriminate).
  split; [exact HR|]. split; [exact HJ|].
  exact (proj1 (proj2 (calculate_compatibility_score_spec _ _ HR HJ))).
Defined.

(** X13: for duplicate-free skill lists, [analyze_skills] splits the job skills into those the resume has (matched) and those it lacks (missing), both duplicate-free, whose sizes add up to the number of job skills. *)
Theorem analyze_skills_partition (resume_skills job_description_skills : list string) :
  NoDup resume_skills -> NoDup job_description_skills ->
  let a := analyze_skills resume_skills job_description_skills in
  (forall s, In s (sa_matched_skills a) <-> In s resume_skills /\ In s job_description_skills)
  /\ (forall s, In s (sa_missing_skills a) <-> In s job_description_skills /\ ~ In s resume_skills)
  /\ NoDup (sa_matched_skills a) /\ NoDup (sa_missing_skills a)
  /\ List.length (sa_matched_skills a) + List.length (sa_missing_skills a)
     = List.length job_description_skills.
Proof.
  intros HR HJ. cbv zeta. unfold analyze_skills, set_intersection, set_difference.
  cbn [sa_matched_skills sa_missing_skills].
  split; [intros s; rewrite filter_In, mem_In; tauto|].
  split; [intros s; rewrite filter_In, negb_true_iff, mem_false_not_In; tauto|].
  split; [apply NoDup_filter, HR|].
  split; [apply NoDup_filter, HJ|].
  rewrite intersection_length_sym by assumption. apply filter_partition_length.
Qed.

Lemma analyze_skills_partition_witness :
  NoDup ["python"; "sql"; "aws"] /\ NoDup ["python"; "docker"; "sql"]
  /\ List.length (sa_matched_skills (analyze_skills ["python"; "sql"; "aws"] ["python"; "docker"; "sql"]))
     + List.length (sa_missing_skills (analyze_skills ["python"; "sql"; "aws"] ["python"; "docker"; "sql"]))
     = 3.
Proof.
  assert (HR : NoDup ["python"; "sql"; "aws"])
    by (repeat constructor; simpl; intuition discriminate).
  assert (HJ : NoDup ["python"; "docker"; "sql"])
    by (repeat constructor; simpl; intuition discriminate).
  split; [exact HR|]. split; [exact HJ|].
  exact (proj2 (proj2 (proj2 (proj2 (analyze_skills_partition _ _ HR HJ))))).
Defined.
Lemma compute_compatibility_members (resume_skills jd_skills : list string) :
  match compute_compatibility resume_skills jd_skills with
  | (_, matched, missing) =>
      (forall s, In s matched <-> In s (map lower resume_skills) /\ In s (map lower jd_skills))
      /\ (forall s, In s missing <-> In s (map lower jd_skills) /\ ~ In s (map lower resume_skills))
  end.
Proof.
  unfold compute_compatibility. cbv zeta. split; intros s.
  - rewrite In_sort, filter_In, mem_In, !In_dedup. tauto.
  - rewrite In_sort, filter_In, negb_true_iff, mem_false_not_In, !In_dedup. tauto.
Qed.

Lemma analyze_core (resume_skills jd_skills : list string) :
  (forall s, In s resume_skills -> lower s = s) ->
  map lower jd_skills = jd_skills ->
  (forall s, In s resume_skills ->
     In s (snd (fst (compute_compatibility resume_skills jd_skills)))
     <-> ~ In s (filter (fun s => negb (mem s jd_skills)) resume_skills))
  /\ (forall s, In s (filter (fun s => negb (mem s jd_skills)) resume_skills) ->
        In s resume_skills /\ ~ In s (snd (compute_compatibility resume_skills jd_skills))).
Proof.
  intros Hl Hjl.
  pose proof (compute_compatibility_members resume_skills jd_skills) as Hm.
  destruct (compute_compatibility resume_skills jd_skills) as [[score matched] missing].
  destruct Hm as [Hm Hx]. rewrite Hjl, (map_lower_id _ Hl) in Hm, Hx. cbn [fst snd].
  split.
  - intros s Hs. rewrite Hm, filter_In, negb_true_iff, mem_false_not_In.
    destruct (in_dec string_dec s jd_skills); tauto.
  - intros s Hs. rewrite filter_In, negb_true_iff, mem_false_not_In in Hs.
    rewrite Hx. tauto.
Qed.

(** X14: for a resume with lowercase skills, [analyze_resume_vs_jd] marks each resume skill either as matched or as irrelevant, never both; irrelevant skills come from the resume and are not missing; the suggestions add the missing skills and remove nothing. *)
Theorem analyze_resume_vs_jd_partition (resume : Resume.t) (jd : JobDescription.t) :
  (forall s, In s (Resume.skills resume) -> lower s = s) ->
  let a := analyze_resume_vs_jd resume jd in
  (forall s, In s (Resume.skills resume) ->
     In s (AnalysisResult.matched_skills a) <-> ~ In s (AnalysisResult.irrelevant_content a))
  /\ (forall s, In s (AnalysisResult.irrelevant_content a) ->
        In s (Resume.skills resume) /\ ~ In s (AnalysisResult.missing_skills a))
  /\ AnalysisResult.suggestions a = [("add", AnalysisResult.missing_skills a); ("remove", [])].
Proof.
  intros Hl. unfold analyze_resume_vs_jd. cbv zeta.
  assert (Hjl : map lower (SkillMatcher.jd_skills_of (JobDescription.title jd)
                                                     (JobDescription.description jd))
                = SkillMatcher.jd_skills_of (JobDescription.title jd) (JobDescription.description jd)).
  { unfold SkillMatcher.jd_skills_of. apply map_lower_id. intros s Hs.
    apply DEFAULT_SKILL_VOCAB_lower. exact (SkillMatcher_extract_incl _ s Hs). }
  revert Hjl.
  generalize (SkillMatcher.jd_skills_of (JobDescription.title jd) (JobDescription.description jd)).
  intros jd_skills Hjl.
  destruct (analyze_core (Resume.skills resume) jd_skills Hl Hjl) as [H1 H2].
  revert H1 H2.
  destruct (compute_compatibility (Resume.skills resume) jd_skills) as [[score matched] missing].
  intros H1 H2. split; [exact H1|]. split; [exact H2|reflexivity].
Qed.

Lemma analyze_resume_vs_jd_partition_witness :
  (forall s, In s (Resume.skills resume_python_java) -> lower s = s)
  /\ (In "java" (AnalysisResult.matched_skills (analyze_resume_vs_jd resume_python_java jd_python))
      <-> ~ In "java" (AnalysisResult.irrelevant_content (analyze_resume_vs_jd resume_python_java jd_python))).
Proof.
  assert (H : forall s, In s (Resume.skills resume_python_java) -> lower s = s).
  { intros s Hs. simpl in Hs. destruct Hs as [<-|[<-|[]]]; reflexivity. }
  split; [exact H|].
  apply (proj1 (analyze_resume_vs_jd_partition resume_python_java jd_python H)).
  simpl. tauto.
Defined.
Lemma chars_app (a b : string) : chars (a ++ b) = (chars a ++ chars b)%list.
Proof. unfold chars. induction a as [|c a IH]; simpl; [reflexivity|]. rewrite IH. reflexivity. Qed.

Lemma string_append_assoc (a b c : string) : a ++ b ++ c = (a ++ b) ++ c.
Proof. induction a as [|x a IH]; simpl; [reflexivity|]. rewrite IH. reflexivity. Qed.

Lemma prefix_app (p t : string) : String.prefix p (p ++ t) = true.
Proof.
  induction p as [|c p IH]; simpl; [destruct t; reflexivity|].
  destruct (ascii_dec c c); [exact IH|congruence].
Qed.

Lemma prefix_split (p s : string) : String.prefix p s = true -> s = p ++ drop (String.length p) s.
Proof.
  revert s. induction p as [|c p IH]; intros s H; simpl; [reflexivity|].
  destruct s as [|d s]; simpl in H; [discriminate|].
  destruct (ascii_dec c d) as [<-|]; [|discriminate].
  f_equal. apply IH, H.
Qed.

Lemma contains_eq (u s : string) :
  contains u s = String.prefix u s || match s with EmptyString => false | String _ s' => contains u s' end.
Proof. destruct s; reflexivity. Qed.

Lemma contains_prefix (u s : string) : String.prefix u s = true -> contains u s = true.
Proof. intros H. rewrite contains_eq, H. reflexivity. Qed.

Lemma contains_app_r (u x t : string) : contains u t = true -> contains u (x ++ t) = true.
Proof.
  intros H. induction x as [|c x IH]; cbn [append]; [exact H|].
  rewrite contains_eq. apply orb_true_intro. right. exact IH.
Qed.

Lemma span_nonspace_spec (s : string) :
  let (run, after) := span_nonspace s in
  s = run ++ after /\ forallb (fun c => negb (is_space c)) (chars run) = true.
Proof.
  induction s as [|c s IH]; simpl; [split; reflexivity|].
  destruct (is_space c) eqn:E; [split; reflexivity|].
  destruct (span_nonspace s) as [run after]. destruct IH as [-> IH].
  split; [reflexivity|]. unfold chars in *. simpl. rewrite E, IH. reflexivity.
Qed.

Lemma try_prefix_spec (p s m after : string) :
  (if String.prefix p s then
     let (run, after0) := span_nonspace (drop (String.length p) s) in
     if String.eqb run "" then None else Some (p ++ run, after0)
   else None) = Some (m, after) ->
  exists run, m = p ++ run /\ s = m ++ after
              /\ forallb (fun c => negb (is_space c)) (chars run) = true.
Proof.
  destruct (String.prefix p s) eqn:E; [|discriminate].
  pose proof (span_nonspace_spec (drop (String.length p) s)) as Hs.
  destruct (span_nonspace (drop (String.length p) s)) as [run after0].
  destruct (String.eqb run "") eqn:E2; [discriminate|].
  intros H. injection H as <- <-. destruct Hs as [Hd Hr].
  exists run. split; [reflexivity|]. split; [|exact Hr].
  rewrite <- string_append_assoc, <- Hd. apply prefix_split, E.
Qed.

Lemma url_match_at_spec (s m after : string) :
  url_match_at s = Some (m, after) ->
  s = m ++ after
  /\ (startswith "https://" m = true \/ startswith "http://" m = true)
  /\ forallb (fun c => negb (is_space c)) (chars m) = true.
Proof.
  unfold url_match_at. cbv zeta.
  destruct (if String.prefix "https://" s then _ else None) as [[m0 a0]|] eqn:E1.
  - intros H. injection H as <- <-.
    destruct (try_prefix_spec _ _ _ _ E1) as (run & -> & Hs & Hr).
    split; [exact Hs|]. split; [left; apply prefix_app|].
    rewrite chars_app, forallb_app, Hr. reflexivity.
  - intros H. destruct (try_prefix_spec _ _ _ _ H) as (run & -> & Hs & Hr).
    split; [exact Hs|]. split; [right; apply prefix_app|].
    rewrite chars_app, forallb_app, Hr. reflexivity.
Qed.

Lemma url_findall_aux_spec (fuel : nat) (s u : string) :
  In u (url_findall_aux fuel s) ->
  contains u s = true
  /\ (startswith "https://" u = true \/ startswith "http://" u = true)
  /\ forallb (fun c => negb (is_space c)) (chars u) = true.
Proof.
  revert s. induction fuel as [|f IH]; intros s H; [destruct H|].
  destruct s as [|c s']; [destruct H|].
  cbn [url_findall_aux] in H.
  destruct (url_match_at (String c s')) as [[m after]|] eqn:E.
  - apply url_match_at_spec in E as (Hs & Hp & Hn).
    destruct H as [<-|H].
    + split; [|tauto]. apply contains_prefix. rewrite Hs. apply prefix_app.
    + destruct (IH after H) as (Hc & Hp' & Hn'). split; [|tauto].
      rewrite Hs. apply contains_app_r, Hc.
  - destruct (IH s' H) as (Hc & Hp & Hn). split; [|tauto].
    rewrite contains_eq. apply orb_true_intro. right. exact Hc.
Qed.

(** X15: every profile found by [extract_profiles_from_text] has the label [label_url] gives its URL, and a URL that starts with https:// or http://, holds no whitespace and occurs in the text. *)
Theorem extract_profiles_from_text_spec (text : string) :
  forall p, In p (extract_profiles_from_text text) ->
    OnlineProfile.label p = label_url (OnlineProfile.url p)
    /\ (startswith "https://" (OnlineProfile.url p) = true
        \/ startswith "http://" (OnlineProfile.url p) = true)
    /\ forallb (fun c => negb (is_space c)) (chars (OnlineProfile.url p)) = true
    /\ contains (OnlineProfile.url p) text = true.
Proof.
  intros p Hp. unfold extract_profiles_from_text in Hp. apply in_map_iff in Hp as [u [<- Hu]].
  cbn [OnlineProfile.label OnlineProfile.url].
  apply url_findall_aux_spec in Hu as (Hc & Hp & Hn). tauto.
Qed.

Lemma extract_profiles_from_text_spec_witness :
  In (OnlineProfile.mk "GitHub" "https://github.com/jdoe") (extract_profiles_from_text profile_text)
  /\ contains "https://github.com/jdoe" profile_text = true.
Proof.
  assert (H : In (OnlineProfile.mk "GitHub" "https://github.com/jdoe")
                 (extract_profiles_from_text profile_text)) by (vm_compute; left; reflexivity).
  split; [exact H|].
  exact (proj2 (proj2 (proj2 (extract_profiles_from_text_spec profile_text _ H)))).
Defined.

(** X16: [label_url] returns one of its ten labels, and it ignores the case of the URL. *)
Theorem label_url_spec (url : string) :
  In (label_url url) ["LinkedIn"; "GitHub"; "Portfolio"; "Medium"; "Kaggle"; "LeetCode";
                      "Codeforces"; "GitLab"; "Bitbucket"; "Website"]
  /\ label_url (lower url) = label_url url.
Proof.
  unfold label_url. rewrite lower_idem. split; [|reflexivity].
  destruct (find (fun kv => contains (fst kv) (lower url)) PROFILE_LABELS) as [[k l]|] eqn:E.
  - apply find_some in E as [E _]. simpl in E.
    repeat (destruct E as [E|E]; [injection E as <- <-; simpl; tauto|]). destruct E.
  - simpl. tauto.
Qed.
Lemma contains_char (c : ascii) (s : string) :
  contains (String c "") s = true <-> In c (chars s).
Proof.
  unfold chars. induction s as [|d t IH]; rewrite contains_eq; simpl; [split; [discriminate|tauto]|].
  rewrite <- IH. destruct (ascii_dec c d) as [<-|Hne].
  - destruct t; simpl; tauto.
  - simpl. split; [intros H; right; exact H|intros [H|H]; [congruence|exact H]].
Qed.

Lemma lstrip_incl (s : string) (x : ascii) : In x (chars (lstrip s)) -> In x (chars s).
Proof.
  unfold chars. induction s as [|c s IH]; simpl; [tauto|].
  destruct (is_space c); [intros H; right; apply IH, H|exact id].
Qed.

Lemma rstrip_incl (s : string) (x : ascii) : In x (chars (rstrip s)) -> In x (chars s).
Proof.
  unfold chars. induction s as [|c s IH]; simpl; [tauto|].
  destruct (String.eqb (rstrip s) "" && is_space c); simpl; [tauto|].
  intros [H|H]; [left; exact H|right; apply IH, H].
Qed.

Lemma strip_incl (s : string) (x : ascii) : In x (chars (strip s)) -> In x (chars s).
Proof. intros H. apply rstrip_incl, lstrip_incl, H. Qed.

Lemma drop_incl (n : nat) (s : string) (x : ascii) : In x (chars (drop n s)) -> In x (chars s).
Proof.
  unfold chars. revert s. induction n as [|n IH]; intros [|c s]; simpl; try tauto.
  intros H. right. apply IH, H.
Qed.

Lemma after_char_incl (sep : ascii) (s : string) (x : ascii) :
  In x (chars (after_char sep s)) -> In x (chars s).
Proof.
  unfold chars. induction s as [|c s IH]; simpl; [tauto|].
  destruct (Ascii.eqb c sep); intros H; right; [exact H|apply IH, H].
Qed.

Lemma list_item_of_line_some (raw item : string) :
  list_item_of_line raw = Some item ->
  item <> "" /\ strip item = item /\ contains ":" item = false /\ contains "=" item = false.
Proof.
  unfold list_item_of_line. set (line := strip raw).
  destruct (String.eqb line "" || contains ":" line || contains "=" line) eqn:E; [discriminate|].
  apply orb_false_iff in E as [E Heq]. apply orb_false_iff in E as [_ Hcol].
  cbv zeta.
  assert (Hsub : forall x, (forall c, In c (chars x) -> In c (chars line)) ->
                 contains ":" x = false /\ contains "=" x = false).
  { intros x Hx. split; apply not_true_is_false; intros H;
      apply contains_char, Hx, contains_char in H; congruence. }
  set (item' := if startswith "-" line then strip (drop 1 line)
                else if first_is_digit line && contains "." (take 3 line)
                then strip (after_char "."%char line) else line).
  assert (Hs : strip item' = item'
               /\ forall c, In c (chars item') -> In c (chars line)).
  { unfold item'. destruct (startswith "-" line).
    - split; [apply strip_idem|]. intros c Hc. apply drop_incl with 1, strip_incl, Hc.
    - destruct (first_is_digit line && contains "." (take 3 line)).
      + split; [apply strip_idem|]. intros c Hc. apply after_char_incl with "."%char, strip_incl, Hc.
      + split; [apply strip_idem|tauto]. }
  destruct (String.eqb item' "") eqn:Ei; [discriminate|].
  intros H. injection H as <-. apply String.eqb_neq in Ei.
  destruct Hs as [Hs Hi]. destruct (Hsub item' Hi). tauto.
Qed.

Lemma extract_list_items_good (text : string) :
  Forall (fun item => item <> "" /\ contains ":" item = false /\ contains "=" item = false)
         (extract_list_items text).
Proof.
  apply Forall_forall. intros item H. unfold extract_list_items in H.
  apply in_flat_map in H as [l [_ Hl]].
  destruct (list_item_of_line l) as [x|] eqn:E; [|destruct Hl].
  destruct Hl as [<-|[]]. apply list_item_of_line_some in E. tauto.
Qed.

(** X17: every item of [extract_list_items] is non-empty, stripped, and contains neither ':' nor '='. *)
Theorem extract_list_items_spec (text : string) :
  forall item, In item (extract_list_items text) ->
    item <> "" /\ strip item = item /\ contains ":" item = false /\ contains "=" item = false.
Proof.
  intros item H. unfold extract_list_items in H.
  apply in_flat_map in H as [l [_ Hl]].
  destruct (list_item_of_line l) as [x|] eqn:E; [|destruct Hl].
  destruct Hl as [<-|[]]. apply list_item_of_line_some with l. exact E.
Qed.

Lemma extract_list_items_spec_witness :
  In "Django" (extract_list_items list_text) /\ strip "Django" = "Django".
Proof.
  assert (H : In "Django" (extract_list_items list_text)) by (vm_compute; right; left; reflexivity).
  split; [exact H|].
  exact (proj1 (proj2 (extract_list_items_spec list_text "Django" H))).
Defined.

Lemma first_score_range (float_of_word : string -> option pyfloat) (words : list string) (f : pyfloat) :
  first_score float_of_word words = Some f -> in_score_range f = true.
Proof.
  induction words as [|w ws IH]; simpl; [discriminate|].
  destruct (float_of_word w) as [g|]; [|exact IH].
  destruct (in_score_range g) eqn:E; [intros H; injection H as <-; exact E|exact IH].
Qed.

(** X18: for every behaviour of [float], [parse_groq_response] returns a score between 0 and 10, a non-empty overall assessment, the raw response unchanged, and list items that are non-empty and contain neither ':' nor '='. *)
Theorem parse_groq_response_spec (float_of_word : string -> option pyfloat) (response : string) :
  let r := parse_groq_response float_of_word response in
  in_score_range (GroqResult.compatibility_score r) = true
  /\ GroqResult.overall_assessment r <> ""
  /\ GroqResult.raw_response r = response
  /\ Forall (fun l => Forall (fun item => item <> "" /\ contains ":" item = false
                                         /\ contains "=" item = false) l)
            [GroqResult.matched_skills r; GroqResult.missing_skills r; GroqResult.strengths r;
             GroqResult.gaps r; GroqResult.recommendations r].
Proof.
  cbv zeta. unfold parse_groq_response. cbv zeta.
  generalize (split_blank_lines response) as sections.
  set (good := fun l : list string =>
                 Forall (fun item => item <> "" /\ contains ":" item = false
                                     /\ contains "=" item = false) l).
  assert (Hgood : forall text, good (extract_list_items text)) by apply extract_list_items_good.
  intros sections.
  cut (forall r,
         in_score_range (GroqResult.compatibility_score r) = true
         /\ GroqResult.overall_assessment r <> ""
         /\ GroqResult.raw_response r = response
         /\ Forall good [GroqResult.matched_skills r; GroqResult.missing_skills r;
                         GroqResult.strengths r; GroqResult.gaps r; GroqResult.recommendations r] ->
         let r' := fold_left (parse_section float_of_word) sections r in
         in_score_range (GroqResult.compatibility_score r') = true
         /\ GroqResult.overall_assessment r' <> ""
         /\ GroqResult.raw_response r' = response
         /\ Forall good [GroqResult.matched_skills r'; GroqResult.missing_skills r';
                         GroqResult.strengths r'; GroqResult.gaps r'; GroqResult.recommendations r']).
  { intros H. apply H. cbn. split; [reflexivity|]. split; [discriminate|]. split; [reflexivity|].
    repeat constructor. }
  induction sections as [|section rest IH]; intros r Hr; cbn [fold_left]; [exact Hr|].
  apply IH. clear IH.
  destruct r as [score ms mi st ga re oa raw].
  cbn [GroqResult.compatibility_score GroqResult.overall_assessment GroqResult.raw_response
       GroqResult.matched_skills GroqResult.missing_skills GroqResult.strengths
       GroqResult.gaps GroqResult.recommendations] in Hr.
  destruct Hr as (Hs & Ho & Hraw & Hl).
  inversion Hl as [|? ? Hms Hl1]; inversion Hl1 as [|? ? Hmi Hl2]; inversion Hl2 as [|? ? Hst Hl3];
    inversion Hl3 as [|? ? Hga Hl4]; inversion Hl4 as [|? ? Hre _]; subst.
  unfold parse_section.
  repeat match goal with
  | |- context [if ?b then _ else _] => destruct b eqn:?
  | |- context [match first_score ?f ?w with Some _ => _ | None => _ end] =>
      destruct (first_score f w) eqn:?
  end;
  cbn [GroqResult.compatibility_score GroqResult.overall_assessment GroqResult.raw_response
       GroqResult.matched_skills GroqResult.missing_skills GroqResult.strengths
       GroqResult.gaps GroqResult.recommendations];
  (split; [try assumption; eapply first_score_range; eassumption|]);
  (split; [try assumption; apply String.eqb_neq; assumption|]);
  (split; [reflexivity|]);
  repeat constructor; try assumption; apply Hgood.
Qed.
Lemma alpha_case_chars (c : ascii) :
  is_alpha c = true ->
  is_space c = false /\ is_space (lower_char c) = false /\ is_space (upper_char c) = false
  /\ c <> "@"%char /\ lower_char c <> "@"%char /\ upper_char c <> "@"%char.
Proof.
  destruct c as [[] [] [] [] [] [] [] []]; vm_compute; intros H;
    try discriminate H; repeat split; intros E; discriminate E.
Qed.

Lemma title_aux_chars (b : bool) (s : string) :
  map is_space (chars (title_aux b s)) = map is_space (chars s)
  /\ (In "@"%char (chars (title_aux b s)) -> In "@"%char (chars s)).
Proof.
  unfold chars. revert b. induction s as [|c s IH]; intros b; simpl; [tauto|].
  destruct (is_alpha c) eqn:E; simpl.
  - destruct (alpha_case_chars c E) as (H1 & H2 & H3 & H4 & H5 & H6).
    destruct (IH true) as [IH1 IH2]. rewrite IH1, H1.
    split; [destruct b; [rewrite H2|rewrite H3]; reflexivity|].
    intros [H|H]; [destruct b; congruence|right; apply IH2, H].
  - destruct (IH false) as [IH1 IH2]. rewrite IH1. split; [reflexivity|].
    intros [H|H]; [left; exact H|right; apply IH2, H].
Qed.

Lemma split_ws_aux_length (s t cur cur' : string) :
  map is_space (chars s) = map is_space (chars t) ->
  (cur = "" <-> cur' = "") ->
  List.length (split_ws_aux cur s) = List.length (split_ws_aux cur' t).
Proof.
  unfold chars. revert t cur cur'.
  induction s as [|c s IH]; intros [|d t] cur cur' Hp Hc; simpl in Hp; try discriminate Hp.
  - simpl. destruct (String.eqb cur "") eqn:E1, (String.eqb cur' "") eqn:E2; try reflexivity;
      rewrite ?String.eqb_eq, ?String.eqb_neq in E1; rewrite ?String.eqb_eq, ?String.eqb_neq in E2; tauto.
  - injection Hp as Hcd Hp. simpl. rewrite Hcd.
    destruct (is_space d).
    + destruct (String.eqb cur "") eqn:E1, (String.eqb cur' "") eqn:E2;
        rewrite ?String.eqb_eq, ?String.eqb_neq in E1; rewrite ?String.eqb_eq, ?String.eqb_neq in E2; try tauto;
        first [apply IH; tauto | simpl; f_equal; apply IH; tauto].
    + apply IH; [exact Hp|]. split; intros H; exfalso; destruct cur, cur'; discriminate H.
Qed.

Lemma title_words (s : string) :
  List.length (split_ws (title s)) = List.length (split_ws s)
  /\ (In "@"%char (chars (title s)) -> In "@"%char (chars s)).
Proof.
  unfold title, split_ws. destruct (title_aux_chars false s) as [H1 H2].
  split; [apply split_ws_aux_length; [exact H1|tauto]|exact H2].
Qed.

Lemma name_candidate_props (line : string) :
  is_name_candidate line = true ->
  ~ In "@"%char (chars line) /\ List.length (split_ws line) <= 5.
Proof.
  unfold is_name_candidate.
  destruct (contains "@" line) eqn:E; [discriminate|]. cbn [orb].
  intros H. split.
  - intros Hin. apply contains_char in Hin. congruence.
  - repeat match goal with H : context [if ?b then _ else _] |- _ => destruct b; [discriminate|] end.
    cbv zeta in H. apply andb_true_iff in H as [H _]. apply andb_true_iff in H as [_ H].
    apply Nat.leb_le, H.
Qed.

Lemma chars_strip_join (a b : string) (x : ascii) :
  In x (chars (strip (a ++ " " ++ b))) -> In x (chars a) \/ x = " "%char \/ In x (chars b).
Proof.
  intros H. apply strip_incl in H. rewrite !chars_app in H. simpl in H.
  apply in_app_or in H as [H|[H|H]]; [left; exact H|right; left; congruence|right; right; exact H].
Qed.

(** X19: the name returned by [extract_name_robust] holds no '@' and at most five words. *)
Theorem extract_name_robust_spec (text : string) :
  let name := extract_name_robust text in
  contains "@" name = false /\ List.length (split_ws name) <= 5.
Proof.
  cbv zeta.
  assert (Ht : forall x, ~ In "@"%char (chars x) -> List.length (split_ws x) <= 5 ->
                         contains "@" (title x) = false /\ List.length (split_ws (title x)) <= 5).
  { intros x Hx Hw. destruct (title_words x) as [H1 H2]. split; [|lia].
    apply not_true_is_false. intros H. apply contains_char, H2 in H. tauto. }
  unfold extract_name_robust.
  destruct (filter _ (map strip (splitlines text))) as [|l0 ls]; [split; [reflexivity|simpl; lia]|].
  destruct (filter is_name_candidate (firstn 15 (l0 :: ls))) as [|first rest] eqn:Ef;
    [split; [reflexivity|simpl; lia]|].
  assert (Hf : is_name_candidate first = true)
    by (assert (Hin : In first (first :: rest)) by (left; reflexivity);
        rewrite <- Ef, filter_In in Hin; tauto).
  destruct (name_candidate_props first Hf) as [Hf1 Hf2].
  destruct rest as [|second rest']; [apply Ht; assumption|].
  assert (Hs : is_name_candidate second = true)
    by (assert (Hin : In second (first :: second :: rest')) by (right; left; reflexivity);
        rewrite <- Ef, filter_In in Hin; tauto).
  destruct (name_candidate_props second Hs) as [Hs1 Hs2].
  destruct (_ && _); [|apply Ht; assumption]. cbv zeta.
  destruct (List.length (split_ws (strip (first ++ " " ++ second))) <=? 5) eqn:Ew;
    [|apply Ht; assumption].
  apply Ht; [|apply Nat.leb_le, Ew].
  intros H. apply chars_strip_join in H as [H|[H|H]]; [tauto|discriminate H|tauto].
Qed.
